(** * squeue-gui: the live table model and its refresh cycle

    A shallow embedding of [squeue-gui.py]: the table model
    [SqueueGUIModel] (a [QAbstractTableModel] over a numpy object array),
    and the parts of the main window [SQGUIMainWindow] that drive it (the
    refresh cycle and the auto-refresh rate).

    Python objects are embedded as follows.
    - An exception is a value of [exn]; a method that mutates [self] is a
      function from the state to an [outcome], which keeps the state reached
      when the exception was raised.
    - A cell of the object array is a [cell]; the 2-D array is an [ndarray].
    - The library calls the program makes (numpy indexing and [argsort],
      pandas frame construction, selection and [to_datetime], Qt's
      [QLineEdit.setText]) are embedded next to the code that calls them. *)

From Stdlib Require Import ZArith List String Ascii Bool Lia.
From Stdlib Require Import Permutation Sorted OrderedTypeEx.
From Stdlib Require Decimal DecimalString DecimalPos DecimalZ.
Import ListNotations.

(* ================================================================== *)
(** ** Exceptions and the state-and-exception monad *)

Inductive exn : Type :=
| IndexError
| TypeError
| KeyError
| ValueError
| AssertionError
| AttributeError
| CalledProcessError.

(** A computation without state that may raise. *)
Inductive result (A : Type) : Type :=
| Ok (a : A)
| Err (e : exn).
Arguments Ok {A} a.
Arguments Err {A} e.

Definition rbind {A B} (x : result A) (f : A -> result B) : result B :=
  match x with
  | Ok a => f a
  | Err e => Err e
  end.

(** A method call on a mutable object of type [S]: it either returns, or
    raises, and in both cases leaves the object in some state. *)
Inductive outcome (S A : Type) : Type :=
| Return (a : A) (s : S)
| Raise (e : exn) (s : S).
Arguments Return {S A} a s.
Arguments Raise {S A} e s.

Definition M (S A : Type) : Type := S -> outcome S A.

Definition ret {S A} (a : A) : M S A := fun s => Return a s.

Definition bind {S A B} (x : M S A) (f : A -> M S B) : M S B :=
  fun s =>
    match x s with
    | Return a s' => f a s'
    | Raise e s' => Raise e s'
    end.

Definition get {S} : M S S := fun s => Return s s.
Definition gets {S A} (f : S -> A) : M S A := fun s => Return (f s) s.
Definition modify {S} (f : S -> S) : M S unit := fun s => Return tt (f s).
Definition raise {S A} (e : exn) : M S A := fun s => Raise e s.

(** Evaluate a pure expression that may raise. *)
Definition lift {S A} (x : result A) : M S A :=
  fun s =>
    match x with
    | Ok a => Return a s
    | Err e => Raise e s
    end.

Definition returns {S A} (o : outcome S A) : bool :=
  match o with
  | Return _ _ => true
  | Raise _ _ => false
  end.

Declare Scope py_scope.
Delimit Scope py_scope with py.
Notation "x <- c1 ;; c2" := (bind c1 (fun x => c2))
  (at level 61, c1 at next level, right associativity) : py_scope.
Notation "c1 ;; c2" := (bind c1 (fun _ => c2))
  (at level 61, right associativity) : py_scope.
Notation "x <-r c1 ;; c2" := (rbind c1 (fun x => c2))
  (at level 61, c1 at next level, right associativity) : py_scope.

(* ================================================================== *)
(** ** Cells of the object array *)

(** What one cell of [DataFrame.values] holds: a Python [int], a [str], a
    [pandas.Timestamp] (naive; [t] is its number of seconds since
    1970-01-01T00:00:00), or one of the two missing-value markers, [nan]
    (also standing for [None]) and [NaT]. *)
Inductive cell : Type :=
| CInt (z : Z)
| CStr (s : string)
| CTime (t : Z)
| CNaN
| CNaT.

Definition cell_eq_dec (a b : cell) : {a = b} + {a <> b}.
Proof.
  decide equality; auto using Z.eq_dec, string_dec.
Defined.

Definition cell_eqb (a b : cell) : bool :=
  if cell_eq_dec a b then true else false.

(** Python's [a < b] on cells.  Values of one kind compare by their
    natural order ([str] by code points); a comparison with [nan] or [NaT]
    is [False]; any other mix raises [TypeError]. *)
Definition cell_lt (a b : cell) : result bool :=
  match a, b with
  | CInt x, CInt y => Ok (x <? y)%Z
  | CStr x, CStr y => Ok (String.ltb x y)
  | CTime x, CTime y => Ok (x <? y)%Z
  | CNaN, CInt _ | CInt _, CNaN | CNaN, CNaN => Ok false
  | CNaT, CTime _ | CTime _, CNaT | CNaT, CNaT => Ok false
  | _, _ => Err TypeError
  end.

(** The kinds of cell a typed column is made of. *)
Inductive kind : Type := KInt | KStr | KTime.

Definition has_kind (k : kind) (a : cell) : bool :=
  match k, a with
  | KInt, CInt _ => true
  | KStr, CStr _ => true
  | KTime, CTime _ => true
  | _, _ => false
  end.

(** A total order on all cells that agrees with [cell_lt] inside each
    kind; cells of different shape are ranked by constructor.  It is the
    order the sorting lemmas are stated with. *)
Definition cell_rank (a : cell) : Z :=
  match a with
  | CInt _ => 0
  | CStr _ => 1
  | CTime _ => 2
  | CNaN => 3
  | CNaT => 4
  end%Z.

Definition cell_compare (a b : cell) : comparison :=
  match a, b with
  | CInt x, CInt y => (x ?= y)%Z
  | CStr x, CStr y => String.compare x y
  | CTime x, CTime y => (x ?= y)%Z
  | _, _ => (cell_rank a ?= cell_rank b)%Z
  end.

Definition cell_ltb (a b : cell) : bool :=
  match cell_compare a b with
  | Lt => true
  | _ => false
  end.

(** [a <= b] in that order: [b] is not below [a]. *)
Definition cell_le (a b : cell) : Prop := cell_ltb b a = false.

(* ================================================================== *)
(** ** Python sequences *)

Module py.

(** Subscripting a sequence of length [n] with the integer [i]: negative
    subscripts count from the end, anything else out of range raises
    [IndexError]. *)
Definition index_of (n : nat) (i : Z) : result nat :=
  if ((0 <=? i) && (i <? Z.of_nat n))%Z then Ok (Z.to_nat i)
  else if ((- Z.of_nat n <=? i) && (i <? 0))%Z then Ok (Z.to_nat (i + Z.of_nat n))
  else Err IndexError.

(** [l[i]] on a list of strings. *)
Definition getitem (l : list string) (i : Z) : result string :=
  (k <-r index_of (List.length l) i ;; Ok (nth k l EmptyString))%py.

(** [x in l]. *)
Definition contains (x : string) (l : list string) : bool :=
  existsb (String.eqb x) l.

(** [l.index(x)]: the first position of [x], [ValueError] when absent. *)
Fixpoint index (x : string) (l : list string) : result nat :=
  match l with
  | [] => Err ValueError
  | y :: l' =>
      if String.eqb y x then Ok 0
      else (k <-r index x l' ;; Ok (S k))%py
  end.

End py.

(* ================================================================== *)
(** ** numpy: the 2-D object array and [argsort] *)

Module np.

(** A 2-D array of shape [(length rows, ncols)].  numpy keeps every row
    [ncols] long ([wf] below); the column count is stored because an
    array may have no row. *)
Record ndarray : Type := { rows : list (list cell); ncols : nat }.

Definition wf (a : ndarray) : Prop :=
  Forall (fun row => List.length row = ncols a) (rows a).

(** [np.shape(a)]. *)
Definition shape (a : ndarray) : nat * nat := (List.length (rows a), ncols a).

(** [a[:, j]]. *)
Definition column (a : ndarray) (j : Z) : result (list cell) :=
  (k <-r py.index_of (ncols a) j ;;
   Ok (map (fun row => nth k row CNaN) (rows a)))%py.

(** [a[idx]] for an array [idx] of row numbers. *)
Definition take (a : ndarray) (idx : list nat) : ndarray :=
  {| rows := map (fun i => nth i (rows a) []) idx; ncols := ncols a |}.

(** [v.argsort()] with the default kind.  On an object array numpy runs
    its generic index sort, which sorts a short array (16 elements or
    fewer) by the insertion pass below: the next index moves left while
    its value is strictly below ([<]) the value before it.  The sorted
    prefix is kept reversed in [racc].  A comparison that raises makes
    the whole call raise.  (On longer arrays numpy partitions first; the
    values come out in the same order whenever [<] is a total order on
    them, only the order among equal values may differ.) *)
Fixpoint insert (x : nat * cell) (racc : list (nat * cell))
  : result (list (nat * cell)) :=
  match racc with
  | [] => Ok [x]
  | y :: rest =>
      (b <-r cell_lt (snd x) (snd y) ;;
       if b : bool then (rest' <-r insert x rest ;; Ok (y :: rest'))
       else Ok (x :: racc))%py
  end.

Fixpoint insertion_pass (items racc : list (nat * cell))
  : result (list (nat * cell)) :=
  match items with
  | [] => Ok racc
  | x :: items' =>
      (racc' <-r insert x racc ;; insertion_pass items' racc')%py
  end.

Definition enumerate (v : list cell) : list (nat * cell) :=
  combine (seq 0 (List.length v)) v.

Definition argsort (v : list cell) : result (list nat) :=
  (racc <-r insertion_pass (enumerate v) [] ;;
   Ok (map fst (rev racc)))%py.

End np.

(* ================================================================== *)
(** ** Qt: the enumerations and the model index the model receives *)

Module Qt.

Inductive SortOrder : Type := AscendingOrder | DescendingOrder.

Inductive ItemDataRole : Type := DisplayRole | EditRole | OtherRole.

Inductive Orientation : Type := Horizontal | Vertical.

Record QModelIndex : Type :=
  { isValid : bool; row : Z; column : Z }.

Definition SortOrder_eqb (a b : SortOrder) : bool :=
  match a, b with
  | AscendingOrder, AscendingOrder => true
  | DescendingOrder, DescendingOrder => true
  | _, _ => false
  end.

End Qt.

(* ================================================================== *)
(** ** Timestamps: [isoformat] and [strftime('%s')] *)

Module datetime.

Local Open Scope Z_scope.

(** Proleptic Gregorian date of the day [days] after 1970-01-01. *)
Definition civil_from_days (days : Z) : Z * Z * Z :=
  let z := days + 719468 in
  let era := z / 146097 in
  let doe := z - era * 146097 in
  let yoe := (doe - doe / 1460 + doe / 36524 - doe / 146096) / 365 in
  let doy := doe - (365 * yoe + yoe / 4 - yoe / 100) in
  let mp := (5 * doy + 2) / 153 in
  let d := doy - (153 * mp + 2) / 5 + 1 in
  let m := if mp <? 10 then mp + 3 else mp - 9 in
  let y := yoe + era * 400 + (if m <=? 2 then 1 else 0) in
  (y, m, d).

Definition digit (n : Z) : ascii := ascii_of_nat (48 + Z.to_nat n).

Definition pad2 (n : Z) : string :=
  String (digit (n / 10)) (String (digit (n mod 10)) EmptyString).

Definition pad4 (n : Z) : string :=
  (pad2 (n / 100) ++ pad2 (n mod 100))%string.

(** [Timestamp.isoformat()] at a whole second, for the four-digit years
    a [Timestamp] can hold. *)
Definition isoformat (t : Z) : string :=
  let '(y, m, d) := civil_from_days (t / 86400) in
  let s := t mod 86400 in
  (pad4 y ++ "-" ++ pad2 m ++ "-" ++ pad2 d ++ "T"
     ++ pad2 (s / 3600) ++ ":" ++ pad2 (s mod 3600 / 60) ++ ":"
     ++ pad2 (s mod 60))%string.

(** [int(value.strftime('%s'))] on a naive timestamp: the C library
    reads the wall-clock fields in the local time zone, so the result is
    [t] minus the zone's offset from UTC (in seconds, east positive) in
    effect at that wall-clock time. *)
Definition strftime_s (utcoffset : Z -> Z) (t : Z) : Z :=
  t - utcoffset t.

End datetime.

(* ================================================================== *)
(** ** [class SqueueGUIModel(QAbstractTableModel)] *)

Module SqueueGUIModel.

(** The attributes of an instance.  The layout and data-changed signals
    the methods emit carry no state and are left out. *)
Record t : Type :=
  { _array : np.ndarray;
    _headers : list string;
    r : nat;
    c : nat;
    _sortby : Z;
    _sortord : Qt.SortOrder }.

Definition set_array (a : np.ndarray) (self : t) : t :=
  {| _array := a; _headers := _headers self; r := r self; c := c self;
     _sortby := _sortby self; _sortord := _sortord self |}.

Definition set_headers (h : list string) (self : t) : t :=
  {| _array := _array self; _headers := h; r := r self; c := c self;
     _sortby := _sortby self; _sortord := _sortord self |}.

Definition set_shape (rc : nat * nat) (self : t) : t :=
  {| _array := _array self; _headers := _headers self;
     r := fst rc; c := snd rc;
     _sortby := _sortby self; _sortord := _sortord self |}.

Definition set_sortby (i : Z) (self : t) : t :=
  {| _array := _array self; _headers := _headers self;
     r := r self; c := c self;
     _sortby := i; _sortord := _sortord self |}.

Definition set_sortord (o : Qt.SortOrder) (self : t) : t :=
  {| _array := _array self; _headers := _headers self;
     r := r self; c := c self;
     _sortby := _sortby self; _sortord := o |}.

(** [__init__(self, array, headers)]. *)
Definition __init__ (array : np.ndarray) (headers : list string) : t :=
  {| _array := array;
     _headers := headers;
     r := fst (np.shape array);
     c := snd (np.shape array);
     _sortby := 0;
     _sortord := Qt.DescendingOrder |}.

(** The properties [array] and [headers]. *)
Definition array (self : t) : np.ndarray := _array self.
Definition headers (self : t) : list string := _headers self.

(** [update_model(self, new_array, new_headers)]. *)
Definition update_model (new_array : np.ndarray) (new_headers : list string)
  : M t unit :=
  (old_sortvar <- (self <- get ;;
                   lift (py.getitem (headers self) (_sortby self))) ;;
   modify (set_array new_array) ;;
   modify (set_headers new_headers) ;;
   modify (set_shape (np.shape new_array)) ;;
   (if negb (py.contains old_sortvar new_headers)
    then modify (set_sortby 0)
    else (k <- lift (py.index old_sortvar new_headers) ;;
          modify (set_sortby (Z.of_nat k)))) ;;
   column <- gets _sortby ;;
   order <- gets _sortord ;;
   argsort <- (self <- get ;;
               lift (v <-r np.column (array self) column ;; np.argsort v)) ;;
   let argsort :=
     if Qt.SortOrder_eqb order Qt.AscendingOrder then List.rev argsort
     else argsort in
   modify (fun self => set_array (np.take (array self) argsort) self))%py.

Definition rowCount (self : t) : Z := Z.of_nat (r self).

Definition columnCount (self : t) : Z := Z.of_nat (c self).

(** [headerData(self, p_int, orientation, role)]; [None] is Python's
    [None]. *)
Definition headerData (self : t) (p_int : Z) (orientation : Qt.Orientation)
           (role : Qt.ItemDataRole) : result (option cell) :=
  match role with
  | Qt.DisplayRole =>
      match orientation with
      | Qt.Horizontal =>
          if (p_int <? Z.of_nat (List.length (headers self)))%Z
          then (h <-r py.getitem (headers self) p_int ;; Ok (Some (CStr h)))%py
          else Ok None
      | Qt.Vertical => Ok (Some (CInt (p_int + 1)))
      end
  | _ => Ok None
  end.

(** [self.array[row, column]] for subscripts already checked to be in
    [0 .. r) x [0 .. c)]. *)
Definition item (self : t) (row column : Z) : cell :=
  nth (Z.to_nat column) (nth (Z.to_nat row) (np.rows (array self)) []) CNaN.

(** [data(self, index, role)].  A [Timestamp] and [NaT] are both
    instances of [datetime.date]; [NaT.strftime] raises [ValueError]. *)
Definition data (utcoffset : Z -> Z) (self : t) (index : Qt.QModelIndex)
           (role : Qt.ItemDataRole) : result (option cell) :=
  if negb (Qt.isValid index) then Ok None
  else
    let row := Qt.row index in
    let column := Qt.column index in
    if ((row <? 0) || (row >=? rowCount self))%Z then Ok None
    else if ((column <? 0) || (column >=? columnCount self))%Z then Ok None
    else
      match role with
      | Qt.DisplayRole =>
          let value := item self row column in
          match value with
          | CTime t =>
              if (datetime.strftime_s utcoffset t =? 18000)%Z
              then Ok (Some (CStr "N/A"))
              else Ok (Some (CStr (datetime.isoformat t)))
          | CNaT => Err ValueError
          | _ => Ok (Some value)
          end
      | _ => Ok None
      end.

(** [setData(self, index, value, role)].  [self.array] is a numpy array,
    which has no attribute [values]: the assignment raises
    [AttributeError] before anything is stored. *)
Definition setData (index : Qt.QModelIndex) (value : cell)
           (role : Qt.ItemDataRole) : M t bool :=
  if negb (Qt.isValid index) then ret false
  else
    match role with
    | Qt.EditRole =>
        (self <- get ;;
         let row := Qt.row index in
         let column := Qt.column index in
         if ((row <? 0) || (row >=? rowCount self))%Z then ret false
         else if ((column <? 0) || (column >=? columnCount self))%Z
         then ret false
         else raise AttributeError)%py
    | _ => ret false
    end.

(** [sort(self, column, order)]. *)
Definition sort (column : Z) (order : Qt.SortOrder) : M t unit :=
  (modify (set_sortby column) ;;
   modify (set_sortord order) ;;
   argsort <- (self <- get ;;
               lift (v <-r np.column (array self) column ;; np.argsort v)) ;;
   let argsort :=
     if Qt.SortOrder_eqb order Qt.AscendingOrder then List.rev argsort
     else argsort in
   modify (fun self => set_array (np.take (array self) argsort) self))%py.

End SqueueGUIModel.

(* ================================================================== *)
(** ** The decoded output of [squeue --json] *)

Module json.

(** A field of a job record: an integer, a string or [null]. *)
Inductive value : Type :=
| JInt (z : Z)
| JStr (s : string)
| JNull.

(** A decoded JSON object, one binding per key, in document order. *)
Definition object : Type := list (string * value).

Fixpoint dict_get (k : string) (o : object) : option value :=
  match o with
  | [] => None
  | (k', v) :: o' => if String.eqb k' k then Some v else dict_get k o'
  end.

End json.

(* ================================================================== *)
(** ** pandas: the frame operations [refresh] uses *)

Module pd.

(** A frame: its column labels and its rows of cells ([values]). *)
Record DataFrame : Type :=
  { columns : list string; values : list (list cell) }.

Definition cell_of_json (v : json.value) : cell :=
  match v with
  | json.JInt z => CInt z
  | json.JStr s => CStr s
  | json.JNull => CNaN
  end.

Definition add_key (keys : list string) (k : string) : list string :=
  if py.contains k keys then keys else keys ++ [k].

(** The keys of all records, in order of first appearance. *)
Definition union_keys (records : list json.object) : list string :=
  fold_left (fun keys o => fold_left add_key (map fst o) keys) records [].

(** [pd.DataFrame.from_dict(records)] on a list of records: one column
    per key that occurs in some record, one row per record, [nan] where a
    record has no such key. *)
Definition from_dict (records : list json.object) : DataFrame :=
  let cols := union_keys records in
  {| columns := cols;
     values :=
       map (fun o =>
              map (fun k =>
                     match json.dict_get k o with
                     | Some v => cell_of_json v
                     | None => CNaN
                     end) cols) records |}.

(** [pd.DataFrame(columns=cols)]: no row. *)
Definition empty (cols : list string) : DataFrame :=
  {| columns := cols; values := [] |}.

(** The position of a column label, [KeyError] when the frame has no
    such column. *)
Definition loc (name : string) (df : DataFrame) : result nat :=
  match py.index name (columns df) with
  | Ok k => Ok k
  | Err _ => Err KeyError
  end.

Fixpoint locs (names : list string) (df : DataFrame) : result (list nat) :=
  match names with
  | [] => Ok []
  | n :: names' =>
      (k <-r loc n df ;; ks <-r locs names' df ;; Ok (k :: ks))%py
  end.

(** [df[names]] for a list of labels: those columns, in that order. *)
Definition getitem (df : DataFrame) (names : list string)
  : result DataFrame :=
  (ks <-r locs names df ;;
   Ok {| columns := names;
         values := map (fun row => map (fun k => nth k row CNaN) ks)
                       (values df) |})%py.

(** One element of [series.isin(items)]. *)
Definition isin (items : list string) (a : cell) : bool :=
  match a with
  | CStr s => py.contains s items
  | _ => false
  end.

(** One element of [series == s]. *)
Definition eq_str (s : string) (a : cell) : bool :=
  match a with
  | CStr s' => String.eqb s' s
  | _ => false
  end.

(** [df[mask(df[name])]]: the rows whose cell in column [name]
    satisfies [mask]. *)
Definition where_ (df : DataFrame) (name : string) (mask : cell -> bool)
  : result DataFrame :=
  (k <-r loc name df ;;
   Ok {| columns := columns df;
         values := filter (fun row => mask (nth k row CNaN)) (values df) |})%py.

(** One element of [pd.to_datetime(series, unit='s')]: a number of
    seconds becomes the timestamp that many seconds after the epoch, a
    missing value becomes [NaT].  (squeue writes integers here; a string
    is taken as not convertible.) *)
Definition to_datetime (a : cell) : result cell :=
  match a with
  | CInt z => Ok (CTime z)
  | CTime t => Ok (CTime t)
  | CNaN => Ok CNaT
  | CNaT => Ok CNaT
  | CStr _ => Err ValueError
  end.

Fixpoint set_nth (k : nat) (a : cell) (row : list cell) : list cell :=
  match row, k with
  | [], _ => []
  | _ :: row', O => a :: row'
  | b :: row', S k' => b :: set_nth k' a row'
  end.

Fixpoint convert_rows (k : nat) (rows : list (list cell))
  : result (list (list cell)) :=
  match rows with
  | [] => Ok []
  | row :: rows' =>
      (a <-r to_datetime (nth k row CNaN) ;;
       rows'' <-r convert_rows k rows' ;;
       Ok (set_nth k a row :: rows''))%py
  end.

(** [df[name] = pd.to_datetime(df[name], unit='s')]. *)
Definition assign_to_datetime (df : DataFrame) (name : string)
  : result DataFrame :=
  (k <-r loc name df ;;
   rows <-r convert_rows k (values df) ;;
   Ok {| columns := columns df; values := rows |})%py.

(** [np.array(df.values)]. *)
Definition to_array (df : DataFrame) : np.ndarray :=
  {| np.rows := values df; np.ncols := List.length (columns df) |}.

End pd.

(* ================================================================== *)
(** ** [class SQGUIMainWindow(QMainWindow)] *)

(** The module-level list [SQUEUE_TIMEVAR]. *)
Definition SQUEUE_TIMEVAR : list string :=
  [ "accrue_time"; "eligible_time"; "end_time"; "last_sched_evaluation";
    "start_time"; "submit_time" ]%string.

(** Python's [int(text)] and [str(n)] on plain decimal numerals, an
    optional minus sign and digits (Python's [int] also accepts blanks
    around the numeral, a plus sign and underscores). *)
Definition py_int (text : string) : result Z :=
  match DecimalString.NilZero.int_of_string text with
  | Some d => Ok (Z.of_int d)
  | None => Err ValueError
  end.

Definition py_str (n : Z) : string :=
  DecimalString.NilZero.string_of_int (Z.to_int n).

Module SQGUIMainWindow.

(** The timer [areftmr]: whether it runs, and its interval in ms. *)
Record QTimer : Type := { isActive : bool; interval : Z }.

(** The attributes the refresh cycle and the rate handler use:
    [w_arefbut] and [w_selffil] are the check boxes' states, [w_arefrte]
    is the text of the line edit. *)
Record t : Type :=
  { uname : string;
    sqcols : list string;
    sqdata : pd.DataFrame;
    sqmodel : SqueueGUIModel.t;
    arefcnt : Z;
    arefrte : Z;
    areftmr : QTimer;
    w_arefbut : bool;
    w_arefrte : string;
    w_selffil : bool }.

Definition set_sqdata (df : pd.DataFrame) (self : t) : t :=
  {| uname := uname self; sqcols := sqcols self; sqdata := df;
     sqmodel := sqmodel self; arefcnt := arefcnt self;
     arefrte := arefrte self; areftmr := areftmr self;
     w_arefbut := w_arefbut self; w_arefrte := w_arefrte self;
     w_selffil := w_selffil self |}.

Definition set_sqmodel (m : SqueueGUIModel.t) (self : t) : t :=
  {| uname := uname self; sqcols := sqcols self; sqdata := sqdata self;
     sqmodel := m; arefcnt := arefcnt self;
     arefrte := arefrte self; areftmr := areftmr self;
     w_arefbut := w_arefbut self; w_arefrte := w_arefrte self;
     w_selffil := w_selffil self |}.

Definition set_arefcnt (n : Z) (self : t) : t :=
  {| uname := uname self; sqcols := sqcols self; sqdata := sqdata self;
     sqmodel := sqmodel self; arefcnt := n;
     arefrte := arefrte self; areftmr := areftmr self;
     w_arefbut := w_arefbut self; w_arefrte := w_arefrte self;
     w_selffil := w_selffil self |}.

Definition set_arefrte (n : Z) (self : t) : t :=
  {| uname := uname self; sqcols := sqcols self; sqdata := sqdata self;
     sqmodel := sqmodel self; arefcnt := arefcnt self;
     arefrte := n; areftmr := areftmr self;
     w_arefbut := w_arefbut self; w_arefrte := w_arefrte self;
     w_selffil := w_selffil self |}.

Definition set_areftmr (tm : QTimer) (self : t) : t :=
  {| uname := uname self; sqcols := sqcols self; sqdata := sqdata self;
     sqmodel := sqmodel self; arefcnt := arefcnt self;
     arefrte := arefrte self; areftmr := tm;
     w_arefbut := w_arefbut self; w_arefrte := w_arefrte self;
     w_selffil := w_selffil self |}.

Definition set_w_arefrte (text : string) (self : t) : t :=
  {| uname := uname self; sqcols := sqcols self; sqdata := sqdata self;
     sqmodel := sqmodel self; arefcnt := arefcnt self;
     arefrte := arefrte self; areftmr := areftmr self;
     w_arefbut := w_arefbut self; w_arefrte := text;
     w_selffil := w_selffil self |}.

(** A method of [self.sqmodel] called from a method of the window. *)
Definition on_sqmodel {A} (m : M SqueueGUIModel.t A) : M t A :=
  fun self =>
    match m (sqmodel self) with
    | Return a model => Return a (set_sqmodel model self)
    | Raise e model => Raise e (set_sqmodel model self)
    end.

(** [__init__(self)], after the version check; [user] is what
    [getpass.getuser()] returns. *)
Definition __init__ (user : string) : t :=
  let cols :=
    [ "job_id"; "job_state"; "user_name"; "qos"; "node_count"; "cpus";
      "start_time" ]%string in
  let df := pd.empty cols in
  {| uname := user;
     sqcols := cols;
     sqdata := df;
     sqmodel := SqueueGUIModel.__init__ (pd.to_array df) cols;
     arefcnt := 0;
     arefrte := 1000;
     areftmr := {| isActive := false; interval := 0 |};
     w_arefbut := false;
     w_arefrte := py_str 1;
     w_selffil := false |}.

(** [QTimer.setInterval], [start(msec)] and [stop]. *)
Definition QTimer_setInterval (msec : Z) (tm : QTimer) : QTimer :=
  {| isActive := isActive tm; interval := msec |}.

Definition QTimer_start (msec : Z) (tm : QTimer) : QTimer :=
  {| isActive := true; interval := msec |}.

Definition QTimer_stop (tm : QTimer) : QTimer :=
  {| isActive := false; interval := interval tm |}.

(** The body of the [try] in [change_autorefresh_rate]. *)
Definition change_autorefresh_rate_try (new_rate : string) : M t unit :=
  (inew_rate <- lift (py_int new_rate) ;;
   (if ((inew_rate >? 0) && (inew_rate <? 10000))%Z then ret tt
    else raise AssertionError) ;;
   modify (set_arefrte (inew_rate * 1000)) ;;
   self <- get ;;
   modify (set_areftmr (QTimer_setInterval (arefrte self) (areftmr self))))%py.

(** [self.w_arefrte.setText(text)]: [QLineEdit] emits [textChanged] when
    the text it holds changes, also when the program changes it, and
    [__init__] connected that signal to [change_autorefresh_rate]; [slot]
    is the connected method. *)
Definition w_arefrte_setText (slot : string -> t -> option (outcome t unit))
           (text : string) (self : t) : option (outcome t unit) :=
  if String.eqb (w_arefrte self) text then Some (Return tt self)
  else slot text (set_w_arefrte text self).

(** [change_autorefresh_rate(self, new_rate)].  The handler calls
    [setText], which can call this method again; [fuel] bounds that
    nesting and [None] means it was too small. *)
Fixpoint change_autorefresh_rate (fuel : nat) (new_rate : string) (self : t)
  : option (outcome t unit) :=
  match fuel with
  | O => None
  | S fuel' =>
      match change_autorefresh_rate_try new_rate self with
      | Return _ self' => Some (Return tt self')
      | Raise _ self' =>
          w_arefrte_setText (change_autorefresh_rate fuel') (py_str 1) self'
      end
  end.

(** The user editing the line edit to read [text]: the same signal. *)
Definition w_arefrte_edit (fuel : nat) (text : string) (self : t)
  : option (outcome t unit) :=
  w_arefrte_setText (change_autorefresh_rate fuel) text self.

(** [toggle_autorefresh(self)], run when the check box changes state. *)
Definition toggle_autorefresh (fuel : nat) (self : t)
  : option (outcome t unit) :=
  if w_arefbut self then
    let self := set_arefcnt 0 self in
    match change_autorefresh_rate fuel (w_arefrte self) self with
    | Some (Return _ self') =>
        Some (Return tt
                (set_areftmr (QTimer_start (arefrte self') (areftmr self'))
                             self'))
    | other => other
    end
  else Some (Return tt (set_areftmr (QTimer_stop (areftmr self)) self)).

(** The loop [for col in self.sqcols: if col in SQUEUE_TIMEVAR: ...]. *)
Fixpoint convert_timevars (cols : list string) : M t unit :=
  match cols with
  | [] => ret tt
  | col :: cols' =>
      ((if py.contains col SQUEUE_TIMEVAR
        then (self <- get ;;
              df <- lift (pd.assign_to_datetime (sqdata self) col) ;;
              modify (set_sqdata df))
        else ret tt) ;;
       convert_timevars cols')%py
  end.

(** [refresh(self)].  [squeue] is what
    [json.loads(subprocess.run(['squeue', '--json'], ...))['jobs']]
    evaluates to: the job records, or the exception it raises.  The
    timing and the printed line are left out. *)
Definition refresh (squeue : result (list json.object)) : M t unit :=
  (modify (fun self => set_arefcnt (arefcnt self + 1) self) ;;
   jobs <- lift squeue ;;
   modify (set_sqdata (pd.from_dict jobs)) ;;
   (self <- get ;;
    df <- lift (pd.getitem (sqdata self) (sqcols self)) ;;
    modify (set_sqdata df)) ;;
   (self <- get ;;
    df <- lift (pd.where_ (sqdata self) "job_state"
                          (pd.isin ["RUNNING"; "PENDING"]%string)) ;;
    modify (set_sqdata df)) ;;
   (self <- get ;;
    if w_selffil self
    then (df <- lift (pd.where_ (sqdata self) "user_name"
                                (pd.eq_str (uname self))) ;;
          modify (set_sqdata df))
    else ret tt) ;;
   (self <- get ;; convert_timevars (sqcols self)) ;;
   (self <- get ;;
    on_sqmodel (SqueueGUIModel.update_model (pd.to_array (sqdata self))
                                            (sqcols self))))%py.

End SQGUIMainWindow.

(* ================================================================== *)
(** ** The insertion pass on typed columns *)

(** On a column whose cells are all of one kind no comparison raises, and
    the insertion pass is the following total function. *)
Fixpoint insert_by (x : nat * cell) (racc : list (nat * cell))
  : list (nat * cell) :=
  match racc with
  | [] => [x]
  | y :: rest =>
      if cell_ltb (snd x) (snd y) then y :: insert_by x rest
      else x :: racc
  end.

Fixpoint pass_by (items racc : list (nat * cell)) : list (nat * cell) :=
  match items with
  | [] => racc
  | x :: items' => pass_by items' (insert_by x racc)
  end.

Definition argsort_by (v : list cell) : list nat :=
  map fst (List.rev (pass_by (np.enumerate v) [])).

(** A column of kind [k]. *)
Definition typed (k : kind) (v : list cell) : Prop :=
  Forall (fun a => has_kind k a = true) v.

(** Row [i] of a list of rows, and the cell of a row in column [k]. *)
Definition pick (rows : list (list cell)) (i : nat) : list cell :=
  nth i rows [].

Definition key (k : nat) (row : list cell) : cell := nth k row CNaN.

(** The rows of the array after [sort] or [update_model] has sorted them
    on column [k]. *)
Definition sorted_rows (k : nat) (order : Qt.SortOrder)
           (rows : list (list cell)) : list (list cell) :=
  let argsort := argsort_by (map (key k) rows) in
  map (pick rows)
      (if Qt.SortOrder_eqb order Qt.AscendingOrder then List.rev argsort
       else argsort).

(** The values of column [k], top to bottom. *)
Definition column_values (k : nat) (a : np.ndarray) : list cell :=
  map (key k) (np.rows a).

(** The rows whose cell in column [k] is [v], top to bottom. *)
Definition rows_with (k : nat) (v : cell) (rows : list (list cell))
  : list (list cell) :=
  filter (fun row => cell_eqb (key k row) v) rows.

(** Smallest first, and largest first. *)
Definition nondecreasing (v : list cell) : Prop := StronglySorted cell_le v.

Definition nonincreasing (v : list cell) : Prop :=
  StronglySorted (fun a b => cell_le b a) v.

(** The stored sort column is a subscript [headers] accepts. *)
Definition sortby_valid (self : SqueueGUIModel.t) : Prop :=
  exists name,
    py.getitem (SqueueGUIModel._headers self) (SqueueGUIModel._sortby self)
    = Ok name.

(* ================================================================== *)
(** ** The sorted table *)

(** The reversed prefix is kept largest first. *)
Definition desc (racc : list (nat * cell)) : Prop :=
  StronglySorted (fun x y => cell_le (snd y) (snd x)) racc.

(** An index-value pair names a row of [rows] whose cell in column [k] is
    the value. *)
Definition agrees (k : nat) (rows : list (list cell)) (it : nat * cell) : Prop :=
  key k (pick rows (fst it)) = snd it.

(** The index-value pairs in sorted order. *)
Definition sorted_items (k : nat) (rows : list (list cell)) : list (nat * cell) :=
  List.rev (pass_by (np.enumerate (map (key k) rows)) []).

(** The model after its rows were sorted on column [k], with [column] and
    [order] stored as the sort state. *)
Definition sorted_model (k : nat) (column : Z) (order : Qt.SortOrder)
           (self : SqueueGUIModel.t) : SqueueGUIModel.t :=
  {| SqueueGUIModel._array :=
       {| np.rows := sorted_rows k order (np.rows (SqueueGUIModel._array self));
          np.ncols := np.ncols (SqueueGUIModel._array self) |};
     SqueueGUIModel._headers := SqueueGUIModel._headers self;
     SqueueGUIModel.r := SqueueGUIModel.r self;
     SqueueGUIModel.c := SqueueGUIModel.c self;
     SqueueGUIModel._sortby := column;
     SqueueGUIModel._sortord := order |}.

(** The model with a new array and new headers installed and the sort
    state kept: the state [update_model] sorts. *)
Definition installed (new_array : np.ndarray) (new_headers : list string)
           (self : SqueueGUIModel.t) : SqueueGUIModel.t :=
  {| SqueueGUIModel._array := new_array;
     SqueueGUIModel._headers := new_headers;
     SqueueGUIModel.r := fst (np.shape new_array);
     SqueueGUIModel.c := snd (np.shape new_array);
     SqueueGUIModel._sortby := SqueueGUIModel._sortby self;
     SqueueGUIModel._sortord := SqueueGUIModel._sortord self |}.

(** The column [update_model] rebinds the sort to: the first position of
    the old sort column's name in the new headers, 0 when it is absent. *)
Definition rebound (old_sortvar : string) (new_headers : list string) : nat :=
  if py.contains old_sortvar new_headers then
    match py.index old_sortvar new_headers with
    | Ok k => k
    | Err _ => 0%nat
    end
  else 0%nat.

(* ================================================================== *)
(** ** Typed arrays and reachable tables *)

(** Whether every column of the array holds cells of one kind. *)
Definition column_kind (k : nat) (a : np.ndarray) : option kind :=
  find (fun kd => forallb (has_kind kd) (column_values k a)) [KInt; KStr; KTime].

Definition typed_arrayb (a : np.ndarray) : bool :=
  forallb (fun k => match column_kind k a with Some _ => true | None => false end)
          (seq 0 (np.ncols a)).

Definition typed_array (a : np.ndarray) : Prop := typed_arrayb a = true.

(** The states of the table the program can reach: it is constructed
    over an array with one header per column, and from then on
    [update_model] installs such arrays and [sort] is called, each
    returning normally. *)
Inductive reachable : SqueueGUIModel.t -> Prop :=
| reach_init (array : np.ndarray) (headers : list string) :
    np.ncols array = List.length headers -> headers <> [] ->
    reachable (SqueueGUIModel.__init__ array headers)
| reach_update_model (self self' : SqueueGUIModel.t)
                     (new_array : np.ndarray) (new_headers : list string) :
    reachable self ->
    np.ncols new_array = List.length new_headers -> new_headers <> [] ->
    SqueueGUIModel.update_model new_array new_headers self = Return tt self' ->
    reachable self'
| reach_sort (self self' : SqueueGUIModel.t) (column : Z) (order : Qt.SortOrder) :
    reachable self ->
    SqueueGUIModel.sort column order self = Return tt self' ->
    reachable self'.

(* ================================================================== *)
(** ** The snapshot of a refresh cycle *)

(** The columns [SQGUIMainWindow.__init__] sets. *)
Definition sqcols7 : list string :=
  [ "job_id"; "job_state"; "user_name"; "qos"; "node_count"; "cpus";
    "start_time" ]%string.

(** A column of [cols] that no record has a field for. *)
Definition required_column_absent (jobs : list json.object)
           (cols : list string) : bool :=
  existsb (fun col => negb (py.contains col (pd.union_keys jobs))) cols.

(** The cycle fails at the data source: the query raises, or the frame
    built from the records lacks one of the window's columns. *)
Definition cycle_fails (squeue : result (list json.object))
           (self : SQGUIMainWindow.t) : bool :=
  match squeue with
  | Err _ => true
  | Ok jobs => required_column_absent jobs (SQGUIMainWindow.sqcols self)
  end.

(** The cell a record contributes to a column: its field of that name,
    [nan] when it has none. *)
Definition field (name : string) (o : json.object) : cell :=
  match json.dict_get name o with
  | Some v => pd.cell_of_json v
  | None => CNaN
  end.

(** A record projected on [cols], in that order. *)
Definition project (cols : list string) (o : json.object) : list cell :=
  map (fun name => field name o) cols.

(** The records [refresh] keeps: state RUNNING or PENDING and, when the
    check box is ticked, owned by the window's user. *)
Definition keep (self : SQGUIMainWindow.t) (o : json.object) : bool :=
  pd.isin ["RUNNING"; "PENDING"]%string (field "job_state" o)
  && (if SQGUIMainWindow.w_selffil self
      then pd.eq_str (SQGUIMainWindow.uname self) (field "user_name" o)
      else true).

(** A start time that [to_datetime] converts: a number or no value. *)
Definition convertible (a : cell) : bool :=
  match pd.to_datetime a with
  | Ok _ => true
  | Err _ => false
  end.

Definition to_time (a : cell) : cell :=
  match pd.to_datetime a with
  | Ok a' => a'
  | Err _ => a
  end.

(** The row of the snapshot a kept record becomes. *)
Definition snapshot_row (o : json.object) : list cell :=
  [ field "job_id" o; field "job_state" o; field "user_name" o;
    field "qos" o; field "node_count" o; field "cpus" o;
    to_time (field "start_time" o) ].

(** The frame [refresh] hands to the table. *)
Definition snapshot (self : SQGUIMainWindow.t) (jobs : list json.object)
  : pd.DataFrame :=
  {| pd.columns := sqcols7;
     pd.values := map snapshot_row (filter (keep self) jobs) |}.

(* ================================================================== *)
(** ** Tables, jobs and time zones of the examples *)

(** A table of three jobs whose [cpus] (column 5) are 4, 1 and 2. *)
Definition jobs_412 : np.ndarray :=
  {| np.rows :=
       [ [CInt 11; CStr "RUNNING"; CStr "alice"; CStr "normal"; CInt 1; CInt 4; CTime 1700000000];
         [CInt 12; CStr "RUNNING"; CStr "bob"; CStr "normal"; CInt 1; CInt 1; CTime 1700000100];
         [CInt 13; CStr "PENDING"; CStr "carol"; CStr "normal"; CInt 2; CInt 2; CTime 1700000200] ];
     np.ncols := 7 |}.

Definition table_412 : SqueueGUIModel.t :=
  SqueueGUIModel.__init__ jobs_412 sqcols7.

(** A table of two jobs that tie on column 0. *)
Definition table_tie : SqueueGUIModel.t :=
  SqueueGUIModel.__init__
    {| np.rows := [ [CInt 1; CStr "a"]; [CInt 1; CStr "b"] ]; np.ncols := 2 |}
    [ "k"; "v" ]%string.

(** Two jobs of the queue: one whose [start_time] is 18000, one whose
    [start_time] is 0. *)
Definition job_18000 : json.object :=
  [ ("job_id", json.JInt 1); ("job_state", json.JStr "RUNNING");
    ("user_name", json.JStr "alice"); ("qos", json.JStr "normal");
    ("node_count", json.JInt 1); ("cpus", json.JInt 4);
    ("start_time", json.JInt 18000) ]%string.

Definition job_0 : json.object :=
  [ ("job_id", json.JInt 2); ("job_state", json.JStr "PENDING");
    ("user_name", json.JStr "bob"); ("qos", json.JStr "normal");
    ("node_count", json.JInt 1); ("cpus", json.JInt 1);
    ("start_time", json.JInt 0) ]%string.

(** A zone five hours west of UTC all year (US Eastern standard time),
    and UTC. *)
Definition utc_minus_5 : Z -> Z := fun _ => (-18000)%Z.

(* ================================================================== *)
(** ** States and conditions the further properties are stated with *)

(** The state an outcome leaves the object in, returned or raised. *)
Definition state_of {S A} (o : outcome S A) : S :=
  match o with
  | Return _ s => s
  | Raise _ s => s
  end.

(** The table with [column] and [order] stored as its sort state: what
    the first two assignments of [sort] leave. *)
Definition stored (column : Z) (order : Qt.SortOrder)
           (self : SqueueGUIModel.t) : SqueueGUIModel.t :=
  SqueueGUIModel.set_sortord order (SqueueGUIModel.set_sortby column self).

(** The index is valid and inside the table. *)
Definition in_table (self : SqueueGUIModel.t) (index : Qt.QModelIndex) : bool :=
  Qt.isValid index
  && ((0 <=? Qt.row index)%Z
      && (Qt.row index <? SqueueGUIModel.rowCount self)%Z)
  && ((0 <=? Qt.column index)%Z
      && (Qt.column index <? SqueueGUIModel.columnCount self)%Z).

Definition is_DisplayRole (role : Qt.ItemDataRole) : bool :=
  match role with Qt.DisplayRole => true | _ => false end.

Definition is_EditRole (role : Qt.ItemDataRole) : bool :=
  match role with Qt.EditRole => true | _ => false end.

(** The cell is an [int] or a [str]. *)
Definition plain (a : cell) : bool :=
  match a with
  | CInt _ | CStr _ => true
  | _ => false
  end.

(** The rate is a whole number of seconds from 1 to 9999, in ms. *)
Definition rate_ok (self : SQGUIMainWindow.t) : bool :=
  ((1000 <=? SQGUIMainWindow.arefrte self)
   && (SQGUIMainWindow.arefrte self <=? 9999000)
   && (SQGUIMainWindow.arefrte self mod 1000 =? 0))%Z.


(** What a refresh cycle has no business with: the user, the columns,
    the rate, the timer and the three widgets. *)
Definition controls (self : SQGUIMainWindow.t)
  : string * list string * Z * SQGUIMainWindow.QTimer * bool * string * bool :=
  (SQGUIMainWindow.uname self, SQGUIMainWindow.sqcols self,
   SQGUIMainWindow.arefrte self, SQGUIMainWindow.areftmr self,
   SQGUIMainWindow.w_arefbut self, SQGUIMainWindow.w_arefrte self,
   SQGUIMainWindow.w_selffil self).

(** What the rate handler has no business with: the user, the columns,
    the frame, the table, the counter and the two check boxes. *)
Definition data_side (self : SQGUIMainWindow.t)
  : string * list string * pd.DataFrame * SqueueGUIModel.t * Z * bool * bool :=
  (SQGUIMainWindow.uname self, SQGUIMainWindow.sqcols self,
   SQGUIMainWindow.sqdata self, SQGUIMainWindow.sqmodel self,
   SQGUIMainWindow.arefcnt self, SQGUIMainWindow.w_arefbut self,
   SQGUIMainWindow.w_selffil self).

(** A window whose rate is 5 s and whose line edit reads "5", and a table
    whose stored sort column is out of range. *)
Definition window_5 : SQGUIMainWindow.t :=
  SQGUIMainWindow.set_w_arefrte
    "5" (SQGUIMainWindow.set_arefrte 5000 (SQGUIMainWindow.__init__ "alice")).

Definition table_stale : SqueueGUIModel.t :=
  SqueueGUIModel.set_sortby 7 table_412.

(* ================================================================== *)
(** * Properties *)

(** ** The embedded library calls on small inputs *)

Example argsort_412 : np.argsort [CInt 4; CInt 1; CInt 2] = Ok [1; 2; 0]%nat.
Proof. reflexivity. Qed.

Example argsort_mixed_raises : np.argsort [CInt 4; CStr "x"] = Err TypeError.
Proof. reflexivity. Qed.

Example isoformat_18000 :
  datetime.isoformat 18000 = "1970-01-01T05:00:00"%string.
Proof. reflexivity. Qed.

Example isoformat_leap_day :
  datetime.isoformat 1709210096 = "2024-02-29T12:34:56"%string.
Proof. reflexivity. Qed.

Example py_int_examples :
  py_int "9999" = Ok 9999%Z /\ py_int "-5" = Ok (-5)%Z
  /\ py_int "" = Err ValueError /\ py_int "abc" = Err ValueError.
Proof. repeat split; reflexivity. Qed.

Example from_dict_fills_nan :
  pd.from_dict [ [("a", json.JInt 1)]; [("b", json.JStr "x")] ]%string
  = {| pd.columns := ["a"; "b"]%string;
       pd.values := [ [CInt 1; CNaN]; [CNaN; CStr "x"] ] |}.
Proof. reflexivity. Qed.

(** ** The order on cells *)

Lemma string_compare_trans (a b c : string) :
  String.compare a b = Lt -> String.compare b c = Lt -> String.compare a c = Lt.
Proof.
  intros H1 H2.
  apply String_as_OT.cmp_lt in H1, H2.
  apply String_as_OT.cmp_lt.
  eapply String_as_OT.lt_trans; eassumption.
Qed.

Lemma cell_compare_antisym (a b : cell) :
  cell_compare a b = CompOpp (cell_compare b a).
Proof.
  destruct a, b; simpl;
    auto using Z.compare_antisym, String.compare_antisym.
Qed.

Lemma cell_compare_eq (a b : cell) : cell_compare a b = Eq -> a = b.
Proof.
  destruct a, b; simpl; intros H; try discriminate; try reflexivity.
  - apply Z.compare_eq in H. congruence.
  - apply String.compare_eq_iff in H. congruence.
  - apply Z.compare_eq in H. congruence.
Qed.

Lemma cell_compare_refl (a : cell) : cell_compare a a = Eq.
Proof.
  destruct a; simpl; auto using Z.compare_refl.
  destruct (String.compare s s) eqn:E; auto.
  - pose proof (String.compare_antisym s s) as H. rewrite E in H. discriminate.
  - pose proof (String.compare_antisym s s) as H. rewrite E in H. discriminate.
Qed.

Lemma cell_compare_trans (a b c : cell) :
  cell_compare a b = Lt -> cell_compare b c = Lt -> cell_compare a c = Lt.
Proof.
  destruct a, b, c; simpl; intros H1 H2;
    try discriminate; try reflexivity;
    try (rewrite Z.compare_lt_iff in *; lia).
  eapply string_compare_trans; eassumption.
Qed.

Lemma cell_ltb_irrefl (a : cell) : cell_ltb a a = false.
Proof. unfold cell_ltb. now rewrite cell_compare_refl. Qed.

Lemma cell_ltb_asym (a b : cell) : cell_ltb a b = true -> cell_ltb b a = false.
Proof.
  unfold cell_ltb. rewrite (cell_compare_antisym b a).
  destruct (cell_compare a b); simpl; congruence.
Qed.

Lemma cell_ltb_trans (a b c : cell) :
  cell_ltb a b = true -> cell_ltb b c = true -> cell_ltb a c = true.
Proof.
  unfold cell_ltb. intros H1 H2.
  destruct (cell_compare a b) eqn:E1; try discriminate.
  destruct (cell_compare b c) eqn:E2; try discriminate.
  now rewrite (cell_compare_trans _ _ _ E1 E2).
Qed.

Lemma cell_ltb_total (a b : cell) :
  cell_ltb a b = false -> cell_ltb b a = false -> a = b.
Proof.
  unfold cell_ltb. rewrite (cell_compare_antisym b a).
  destruct (cell_compare a b) eqn:E; simpl; try discriminate.
  intros _ _. now apply cell_compare_eq.
Qed.

Lemma cell_le_refl (a : cell) : cell_le a a.
Proof. apply cell_ltb_irrefl. Qed.

Lemma cell_le_trans (a b c : cell) : cell_le a b -> cell_le b c -> cell_le a c.
Proof.
  unfold cell_le. intros H1 H2.
  destruct (cell_ltb c a) eqn:E; auto.
  destruct (cell_ltb a b) eqn:E1.
  - pose proof (cell_ltb_trans _ _ _ E E1). congruence.
  - assert (a = b) by now apply cell_ltb_total. subst. congruence.
Qed.

Lemma cell_le_antisym (a b : cell) : cell_le a b -> cell_le b a -> a = b.
Proof. unfold cell_le. intros. now apply cell_ltb_total. Qed.

Lemma cell_ltb_le (a b : cell) : cell_ltb a b = true -> cell_le a b.
Proof. apply cell_ltb_asym. Qed.

Lemma cell_eqb_eq (a b : cell) : cell_eqb a b = true <-> a = b.
Proof. unfold cell_eqb. destruct (cell_eq_dec a b); split; congruence. Qed.

(** Inside one kind Python's [<] never raises and is the order above. *)
Lemma cell_lt_typed (k : kind) (a b : cell) :
  has_kind k a = true -> has_kind k b = true ->
  cell_lt a b = Ok (cell_ltb a b).
Proof.
  unfold cell_ltb.
  destruct k, a, b; simpl; intros; try discriminate; f_equal;
    try reflexivity; unfold Z.ltb;
    match goal with |- context [(?x ?= ?y)%Z] => now destruct (x ?= y)%Z end.
Qed.

(** ** The insertion pass *)

Lemma map_fst_combine_eq {A B} (l1 : list A) (l2 : list B) :
  List.length l1 = List.length l2 -> map fst (combine l1 l2) = l1.
Proof.
  revert l2. induction l1 as [|a l1 IH]; intros [|b l2] H; simpl in *;
    try discriminate; auto.
  f_equal. apply IH. lia.
Qed.

Lemma map_snd_combine_eq {A B} (l1 : list A) (l2 : list B) :
  List.length l1 = List.length l2 -> map snd (combine l1 l2) = l2.
Proof.
  revert l2. induction l1 as [|a l1 IH]; intros [|b l2] H; simpl in *;
    try discriminate; auto.
  f_equal. apply IH. lia.
Qed.

Lemma enumerate_fst (v : list cell) :
  map fst (np.enumerate v) = seq 0 (List.length v).
Proof. apply map_fst_combine_eq. now rewrite length_seq. Qed.

Lemma enumerate_snd (v : list cell) : map snd (np.enumerate v) = v.
Proof. apply map_snd_combine_eq. now rewrite length_seq. Qed.

Lemma insert_by_perm (x : nat * cell) (racc : list (nat * cell)) :
  Permutation (insert_by x racc) (x :: racc).
Proof.
  induction racc as [|y rest IH]; simpl; auto.
  destruct (cell_ltb (snd x) (snd y)); auto.
  rewrite IH. apply perm_swap.
Qed.

Lemma pass_by_perm (items racc : list (nat * cell)) :
  Permutation (pass_by items racc) (items ++ racc).
Proof.
  revert racc. induction items as [|x items IH]; intros racc; simpl; auto.
  rewrite IH, insert_by_perm. apply Permutation_sym, Permutation_middle.
Qed.

Lemma typed_perm (k : kind) (v w : list cell) :
  Permutation v w -> typed k v -> typed k w.
Proof. intros H. unfold typed. now rewrite H. Qed.

Lemma insert_typed (k : kind) (x : nat * cell) (racc : list (nat * cell)) :
  has_kind k (snd x) = true -> typed k (map snd racc) ->
  np.insert x racc = Ok (insert_by x racc).
Proof.
  intros Hx. induction racc as [|y rest IH]; simpl; intros Hr; auto.
  inversion Hr as [|? ? Hy Hrest]; subst.
  rewrite (cell_lt_typed k _ _ Hx Hy). simpl.
  destruct (cell_ltb (snd x) (snd y)); auto.
  now rewrite (IH Hrest).
Qed.

Lemma pass_typed (k : kind) (items racc : list (nat * cell)) :
  typed k (map snd items) -> typed k (map snd racc) ->
  np.insertion_pass items racc = Ok (pass_by items racc).
Proof.
  revert racc. induction items as [|x items IH]; intros racc Hi Hr; simpl; auto.
  inversion Hi as [|? ? Hx Hitems]; subst.
  rewrite (insert_typed k x racc Hx Hr). simpl.
  apply IH; auto.
  eapply typed_perm.
  - apply Permutation_map, Permutation_sym, insert_by_perm.
  - simpl. constructor; auto.
Qed.

(** On a typed column [argsort] returns, and what it returns is
    [argsort_by]. *)
Lemma argsort_typed (k : kind) (v : list cell) :
  typed k v -> np.argsort v = Ok (argsort_by v).
Proof.
  intros H. unfold np.argsort, argsort_by.
  rewrite (pass_typed k); simpl; auto.
  - now rewrite enumerate_snd.
  - constructor.
Qed.

Lemma insert_by_desc (x : nat * cell) (racc : list (nat * cell)) :
  desc racc -> desc (insert_by x racc).
Proof.
  unfold desc. induction racc as [|y rest IH]; simpl; intros H.
  - repeat constructor.
  - inversion H as [|? ? Hrest Hy]; subst.
    destruct (cell_ltb (snd x) (snd y)) eqn:E.
    + constructor; auto.
      eapply Permutation_Forall.
      * apply Permutation_sym, insert_by_perm.
      * constructor; auto. now apply cell_ltb_le.
    + constructor; auto.
      constructor; auto.
      eapply Forall_impl; [|exact Hy].
      intros z Hz. simpl in Hz. eapply cell_le_trans; eauto.
Qed.

Lemma pass_by_desc (items racc : list (nat * cell)) :
  desc racc -> desc (pass_by items racc).
Proof.
  revert racc. induction items as [|x items IH]; intros racc H; simpl; auto.
  apply IH. now apply insert_by_desc.
Qed.

Lemma StronglySorted_rev {A} (R : A -> A -> Prop) (l : list A) :
  StronglySorted R l -> StronglySorted (fun a b => R b a) (List.rev l).
Proof.
  induction 1 as [|a l Hl IH Ha]; simpl.
  - constructor.
  - revert IH. generalize (Forall_rev Ha). generalize (List.rev l).
    induction l0 as [|b l0 IH0]; intros Hf Hs; simpl.
    + repeat constructor.
    + inversion Hf; subst. inversion Hs; subst.
      constructor; auto.
      apply Forall_app. split; auto.
Qed.

Lemma StronglySorted_map {A B} (f : A -> B) (R : B -> B -> Prop) (l : list A) :
  StronglySorted (fun a b => R (f a) (f b)) l -> StronglySorted R (map f l).
Proof.
  induction 1 as [|a l Hl IH Ha]; simpl; constructor; auto.
  now apply Forall_map.
Qed.

(** An element goes in after every element it ties with: the cells equal
    to [v] keep their order. *)
Lemma insert_by_filter (v : cell) (x : nat * cell) (racc : list (nat * cell)) :
  filter (fun it => cell_eqb (snd it) v) (insert_by x racc)
  = filter (fun it => cell_eqb (snd it) v) (x :: racc).
Proof.
  induction racc as [|y rest IH]; auto.
  simpl insert_by. destruct (cell_ltb (snd x) (snd y)) eqn:E; auto.
  simpl. simpl in IH. rewrite IH.
  destruct (cell_eqb (snd x) v) eqn:Ex, (cell_eqb (snd y) v) eqn:Ey; auto.
  apply cell_eqb_eq in Ex, Ey. rewrite Ex, Ey, cell_ltb_irrefl in E.
  discriminate.
Qed.

Lemma pass_by_filter (v : cell) (items racc : list (nat * cell)) :
  filter (fun it => cell_eqb (snd it) v) (List.rev (pass_by items racc))
  = filter (fun it => cell_eqb (snd it) v) (List.rev racc ++ items).
Proof.
  revert racc. induction items as [|x items IH]; intros racc; simpl.
  - now rewrite app_nil_r.
  - rewrite IH, filter_app, filter_rev, insert_by_filter.
    rewrite <- filter_rev, <- filter_app. simpl. now rewrite <- app_assoc.
Qed.

(** ** The rows after sorting *)

Lemma combine_seq_nth {A} (d : A) (l : list A) (s : nat) :
  Forall (fun it => nth (fst it - s) l d = snd it /\ (s <= fst it)%nat)
         (combine (seq s (List.length l)) l).
Proof.
  revert s. induction l as [|a l IH]; intros s; simpl; constructor.
  - simpl. rewrite Nat.sub_diag. auto.
  - eapply Forall_impl; [|apply (IH (S s))].
    intros [i b] [H1 H2]. simpl in *. split; [|lia].
    replace (i - s)%nat with (S (i - S s)) by lia. exact H1.
Qed.

Lemma key_nil (k : nat) : key k [] = CNaN.
Proof. now destruct k. Qed.

Lemma enumerate_agrees (k : nat) (rows : list (list cell)) :
  Forall (agrees k rows) (np.enumerate (map (key k) rows)).
Proof.
  unfold np.enumerate.
  eapply Forall_impl; [|apply (combine_seq_nth CNaN)].
  intros [i a] [H _]. unfold agrees, pick. simpl in *.
  rewrite Nat.sub_0_r in H. rewrite <- H.
  rewrite <- (key_nil k), map_nth. reflexivity.
Qed.

Lemma map_pick_seq (rows : list (list cell)) :
  map (pick rows) (seq 0 (List.length rows)) = rows.
Proof.
  unfold pick. induction rows as [|row rows IH]; simpl; auto.
  f_equal. rewrite <- seq_shift, map_map. exact IH.
Qed.

Lemma agrees_keys (k : nat) (rows : list (list cell)) (l : list (nat * cell)) :
  Forall (agrees k rows) l ->
  map (key k) (map (pick rows) (map fst l)) = map snd l.
Proof.
  induction 1 as [|it l H _ IH]; simpl; auto.
  now rewrite IH, H.
Qed.

Lemma agrees_filter (k : nat) (v : cell) (rows : list (list cell))
      (l : list (nat * cell)) :
  Forall (agrees k rows) l ->
  rows_with k v (map (pick rows) (map fst l))
  = map (pick rows) (map fst (filter (fun it => cell_eqb (snd it) v) l)).
Proof.
  unfold rows_with.
  induction 1 as [|it l H _ IH]; simpl; auto.
  rewrite H. destruct (cell_eqb (snd it) v); simpl; now rewrite IH.
Qed.

Lemma sorted_items_perm (k : nat) (rows : list (list cell)) :
  Permutation (sorted_items k rows) (np.enumerate (map (key k) rows)).
Proof.
  unfold sorted_items. rewrite <- Permutation_rev, pass_by_perm.
  now rewrite app_nil_r.
Qed.

Lemma sorted_items_agrees (k : nat) (rows : list (list cell)) :
  Forall (agrees k rows) (sorted_items k rows).
Proof.
  eapply Permutation_Forall.
  - apply Permutation_sym, sorted_items_perm.
  - apply enumerate_agrees.
Qed.

Lemma sorted_rows_descending (k : nat) (rows : list (list cell)) :
  sorted_rows k Qt.DescendingOrder rows
  = map (pick rows) (map fst (sorted_items k rows)).
Proof. reflexivity. Qed.

(** With [Qt.AscendingOrder] the rows come out in the reverse of the order
    they come out in with [Qt.DescendingOrder]. *)
Lemma sorted_rows_ascending (k : nat) (rows : list (list cell)) :
  sorted_rows k Qt.AscendingOrder rows
  = List.rev (sorted_rows k Qt.DescendingOrder rows).
Proof. unfold sorted_rows. simpl. now rewrite map_rev. Qed.

Lemma sorted_rows_perm (k : nat) (order : Qt.SortOrder)
      (rows : list (list cell)) :
  Permutation (sorted_rows k order rows) rows.
Proof.
  assert (H : Permutation (sorted_rows k Qt.DescendingOrder rows) rows).
  { rewrite sorted_rows_descending.
    rewrite (Permutation_map (pick rows)
               (Permutation_map fst (sorted_items_perm k rows))).
    rewrite enumerate_fst, length_map. now rewrite map_pick_seq. }
  destruct order; auto.
  rewrite sorted_rows_ascending. now rewrite <- Permutation_rev.
Qed.

Lemma sorted_rows_length (k : nat) (order : Qt.SortOrder)
      (rows : list (list cell)) :
  List.length (sorted_rows k order rows) = List.length rows.
Proof. apply Permutation_length, sorted_rows_perm. Qed.

(** [Qt.DescendingOrder] leaves the column smallest first. *)
Lemma sorted_rows_descending_keys (k : nat) (rows : list (list cell)) :
  nondecreasing (map (key k) (sorted_rows k Qt.DescendingOrder rows)).
Proof.
  rewrite sorted_rows_descending, agrees_keys by apply sorted_items_agrees.
  apply StronglySorted_map. unfold sorted_items.
  apply (StronglySorted_rev (fun x y => cell_le (snd y) (snd x))).
  apply pass_by_desc. constructor.
Qed.

(** [Qt.AscendingOrder] leaves the column largest first. *)
Lemma sorted_rows_ascending_keys (k : nat) (rows : list (list cell)) :
  nonincreasing (map (key k) (sorted_rows k Qt.AscendingOrder rows)).
Proof.
  rewrite sorted_rows_ascending, map_rev.
  apply (StronglySorted_rev cell_le), sorted_rows_descending_keys.
Qed.

(** [Qt.DescendingOrder] keeps rows that tie in the order they had. *)
Lemma sorted_rows_descending_ties (k : nat) (v : cell)
      (rows : list (list cell)) :
  rows_with k v (sorted_rows k Qt.DescendingOrder rows) = rows_with k v rows.
Proof.
  rewrite sorted_rows_descending, agrees_filter by apply sorted_items_agrees.
  unfold sorted_items. rewrite pass_by_filter. simpl.
  rewrite <- (agrees_filter k v rows) by apply enumerate_agrees.
  now rewrite enumerate_fst, length_map, map_pick_seq.
Qed.

(** [Qt.AscendingOrder] reverses the order of rows that tie. *)
Lemma sorted_rows_ascending_ties (k : nat) (v : cell)
      (rows : list (list cell)) :
  rows_with k v (sorted_rows k Qt.AscendingOrder rows)
  = List.rev (rows_with k v rows).
Proof.
  rewrite sorted_rows_ascending. unfold rows_with at 1.
  rewrite filter_rev. f_equal. apply sorted_rows_descending_ties.
Qed.

(** ** What [sort] and [update_model] return *)

Lemma index_of_nat (n k : nat) :
  (k < n)%nat -> py.index_of n (Z.of_nat k) = Ok k.
Proof.
  intros H. unfold py.index_of.
  replace ((0 <=? Z.of_nat k)%Z && (Z.of_nat k <? Z.of_nat n)%Z) with true.
  - now rewrite Nat2Z.id.
  - symmetry. apply andb_true_iff. split; [apply Z.leb_le | apply Z.ltb_lt]; lia.
Qed.

Lemma index_of_bound (n : nat) (i : Z) (k : nat) :
  py.index_of n i = Ok k ->
  (k < n)%nat /\ (- Z.of_nat n <= i < Z.of_nat n)%Z
  /\ (Z.of_nat k = if (i <? 0)%Z then i + Z.of_nat n else i)%Z.
Proof.
  unfold py.index_of.
  destruct ((0 <=? i)%Z && (i <? Z.of_nat n)%Z) eqn:E1.
  - apply andb_true_iff in E1. destruct E1 as [H1 H2].
    apply Z.leb_le in H1. apply Z.ltb_lt in H2.
    intros H; inversion H; subst.
    destruct (i <? 0)%Z eqn:E; [apply Z.ltb_lt in E|]; lia.
  - destruct ((- Z.of_nat n <=? i)%Z && (i <? 0)%Z) eqn:E2; [|discriminate].
    apply andb_true_iff in E2. destruct E2 as [H1 H2].
    apply Z.leb_le in H1. rewrite H2. apply Z.ltb_lt in H2.
    intros H; inversion H; subst. lia.
Qed.

Lemma contains_index (x : string) (l : list string) :
  py.contains x l = true ->
  exists k, py.index x l = Ok k /\ (k < List.length l)%nat
            /\ nth k l EmptyString = x.
Proof.
  unfold py.contains.
  induction l as [|y l IH]; simpl; intros H; [discriminate|].
  rewrite (String.eqb_sym y x).
  destruct (String.eqb x y) eqn:E.
  - apply String.eqb_eq in E. subst. exists 0%nat. repeat split; auto. lia.
  - simpl in H. destruct (IH H) as (k & Hk & Hlt & Hn).
    exists (S k). rewrite Hk. simpl. repeat split; auto. lia.
Qed.

Lemma rebound_lt (old_sortvar : string) (new_headers : list string) :
  new_headers <> [] -> (rebound old_sortvar new_headers < List.length new_headers)%nat.
Proof.
  intros Hne. unfold rebound.
  destruct (py.contains old_sortvar new_headers) eqn:E.
  - destruct (contains_index _ _ E) as (k & Hk & Hlt & _). now rewrite Hk.
  - destruct new_headers; [congruence | simpl; lia].
Qed.

Lemma sort_returns (self : SqueueGUIModel.t) (column : Z)
      (order : Qt.SortOrder) (k : nat) (kd : kind) :
  py.index_of (np.ncols (SqueueGUIModel._array self)) column = Ok k ->
  typed kd (column_values k (SqueueGUIModel._array self)) ->
  SqueueGUIModel.sort column order self
  = Return tt (sorted_model k column order self).
Proof.
  intros Hk Ht.
  unfold SqueueGUIModel.sort, bind, modify, get, lift, np.column,
    SqueueGUIModel.array.
  simpl. rewrite Hk. simpl.
  change (map (fun row => nth k row CNaN) (np.rows (SqueueGUIModel._array self)))
    with (column_values k (SqueueGUIModel._array self)).
  rewrite (argsort_typed kd _ Ht). simpl.
  destruct order; reflexivity.
Qed.


(** ** Typed arrays *)

Lemma typed_array_column (a : np.ndarray) (k : nat) :
  typed_array a -> (k < np.ncols a)%nat ->
  exists kd, typed kd (column_values k a).
Proof.
  unfold typed_array, typed_arrayb. intros H Hk.
  rewrite forallb_forall in H.
  specialize (H k). rewrite in_seq in H.
  assert (Hc : match column_kind k a with Some _ => true | None => false end = true)
    by (apply H; lia).
  destruct (column_kind k a) as [kd|] eqn:E; [|discriminate].
  exists kd. unfold column_kind in E.
  apply find_some in E. destruct E as [_ E].
  rewrite forallb_forall in E. apply Forall_forall. exact E.
Qed.

(** ** C1 and C8: the direction flag *)

(** On a typed table [sort] leaves the sort column smallest first under
    [Qt.DescendingOrder] and largest first under [Qt.AscendingOrder],
    keeps the rows it had, and leaves [r], [c] and the headers alone. *)
Lemma sort_orders_column (self : SqueueGUIModel.t) (column : Z)
      (order : Qt.SortOrder) (k : nat) :
  py.index_of (np.ncols (SqueueGUIModel._array self)) column = Ok k ->
  typed_array (SqueueGUIModel._array self) ->
  exists self',
    SqueueGUIModel.sort column order self = Return tt self'
    /\ Permutation (np.rows (SqueueGUIModel._array self'))
                   (np.rows (SqueueGUIModel._array self))
    /\ np.shape (SqueueGUIModel._array self')
       = np.shape (SqueueGUIModel._array self)
    /\ match order with
       | Qt.DescendingOrder =>
           nondecreasing (column_values k (SqueueGUIModel._array self'))
       | Qt.AscendingOrder =>
           nonincreasing (column_values k (SqueueGUIModel._array self'))
       end.
Proof.
  intros Hk Hty.
  destruct (index_of_bound _ _ _ Hk) as (Hlt & _).
  destruct (typed_array_column _ _ Hty Hlt) as [kd Ht].
  exists (sorted_model k column order self).
  split; [now apply (sort_returns self column order k kd)|].
  unfold sorted_model, column_values, np.shape; simpl.
  split; [apply sorted_rows_perm|].
  split; [now rewrite sorted_rows_length|].
  destruct order.
  - apply sorted_rows_ascending_keys.
  - apply sorted_rows_descending_keys.
Qed.

(** C1 (the code at the failing input).  On the table whose [cpus] are
    4, 1, 2, [sort] on the [cpus] column with [Qt.AscendingOrder] leaves
    them in the order 4, 2, 1, largest first; it is
    [Qt.DescendingOrder] that leaves them in the order 1, 2, 4. *)
Theorem sort_cpus_412_by_flag :
  (exists self',
      SqueueGUIModel.sort 5 Qt.AscendingOrder table_412 = Return tt self'
      /\ column_values 5 (SqueueGUIModel._array self')
         = [CInt 4; CInt 2; CInt 1])
  /\ (exists self',
         SqueueGUIModel.sort 5 Qt.DescendingOrder table_412 = Return tt self'
         /\ column_values 5 (SqueueGUIModel._array self')
            = [CInt 1; CInt 2; CInt 4]).
Proof.
  split; eexists; (split; [vm_compute; reflexivity | reflexivity]).
Qed.

Lemma not_nondecreasing_421 : ~ nondecreasing [CInt 4; CInt 2; CInt 1].
Proof.
  intros H. inversion H as [|? ? _ Hf]; subst.
  inversion Hf as [|? ? H42 _]; subst.
  unfold cell_le in H42. discriminate.
Qed.

(** C8 (the code at the failing input).  After [sort] on the [cpus]
    column with [Qt.AscendingOrder], [rowCount()] and [columnCount()] are
    the array's dimensions, the stored direction is [Qt.AscendingOrder],
    and the column reads 4, 2, 1, which is not smallest first.  And
    [setData] with an index inside the table raises [AttributeError]: no
    edit of a cell ever succeeds. *)
Theorem table_invariant_at_cpus_412 :
  (exists self',
      SqueueGUIModel.sort 5 Qt.AscendingOrder table_412 = Return tt self'
      /\ (SqueueGUIModel.rowCount self', SqueueGUIModel.columnCount self')
         = (3%Z, 7%Z)
      /\ np.shape (SqueueGUIModel._array self') = (3%nat, 7%nat)
      /\ SqueueGUIModel._sortby self' = 5%Z
      /\ SqueueGUIModel._sortord self' = Qt.AscendingOrder
      /\ ~ nondecreasing (column_values 5 (SqueueGUIModel._array self')))
  /\ SqueueGUIModel.setData
       {| Qt.isValid := true; Qt.row := 0; Qt.column := 5 |}
       (CInt 8) Qt.EditRole table_412
     = Raise AttributeError table_412.
Proof.
  split; [|reflexivity].
  eexists. split; [vm_compute; reflexivity|].
  repeat (split; [reflexivity|]).
  exact not_nondecreasing_421.
Qed.

(** ** C3: the sort column across a change of headers *)

Lemma contains_In (x : string) (l : list string) :
  py.contains x l = true <-> In x l.
Proof.
  unfold py.contains. rewrite existsb_exists. split.
  - intros (y & Hy & E). apply String.eqb_eq in E. now subst.
  - intros H. exists x. split; auto. apply String.eqb_refl.
Qed.

Lemma index_nth_NoDup (l : list string) (k : nat) :
  NoDup l -> (k < List.length l)%nat -> py.index (nth k l EmptyString) l = Ok k.
Proof.
  intros Hnd. revert k. induction Hnd as [|y l Hy Hnd IH]; intros k Hk; simpl in *.
  - lia.
  - destruct k as [|k].
    + now rewrite String.eqb_refl.
    + destruct (String.eqb y (nth k l EmptyString)) eqn:E.
      * apply String.eqb_eq in E. subst. exfalso. apply Hy, nth_In. lia.
      * rewrite IH by lia. reflexivity.
Qed.

Lemma getitem_nth (l : list string) (i : Z) (name : string) :
  py.getitem l i = Ok name ->
  exists k, py.index_of (List.length l) i = Ok k /\ name = nth k l EmptyString.
Proof.
  unfold py.getitem. destruct (py.index_of (List.length l) i) as [k|] eqn:E; simpl.
  - intros H. inversion H. eauto.
  - discriminate.
Qed.

(** Whatever the new array holds, [update_model] ends as [sort] does when
    it is called, on the table with the new array and headers installed,
    with the rebound column and the stored direction: the same return or
    the same exception, in the same state. *)
Lemma update_model_as_sort (self : SqueueGUIModel.t) (new_array : np.ndarray)
      (new_headers : list string) (old_sortvar : string) :
  py.getitem (SqueueGUIModel._headers self) (SqueueGUIModel._sortby self)
  = Ok old_sortvar ->
  SqueueGUIModel.update_model new_array new_headers self
  = SqueueGUIModel.sort (Z.of_nat (rebound old_sortvar new_headers))
                        (SqueueGUIModel._sortord self)
                        (installed new_array new_headers self).
Proof.
  intros Hold. destruct self as [a0 h0 r0 c0 sb so]; simpl in *.
  unfold SqueueGUIModel.update_model, SqueueGUIModel.sort, bind, modify, get,
    gets, lift, SqueueGUIModel.headers, SqueueGUIModel.array.
  cbn [SqueueGUIModel._headers SqueueGUIModel._sortby].
  rewrite Hold. simpl. unfold rebound.
  destruct (py.contains old_sortvar new_headers) eqn:E; simpl.
  - destruct (contains_index _ _ E) as (k & Hk & _ & _). rewrite Hk. simpl.
    destruct (rbind _ _); reflexivity.
  - destruct (rbind _ _); reflexivity.
Qed.



(** ** C10: the stored sort column *)

Lemma cell_lt_err (a b : cell) (e : exn) : cell_lt a b = Err e -> e = TypeError.
Proof. destruct a, b; simpl; congruence. Qed.

Lemma insert_err (x : nat * cell) (racc : list (nat * cell)) (e : exn) :
  np.insert x racc = Err e -> e = TypeError.
Proof.
  induction racc as [|y rest IH]; simpl; [discriminate|].
  destruct (cell_lt (snd x) (snd y)) as [[|]|e'] eqn:E; simpl.
  - destruct (np.insert x rest); simpl; [discriminate|].
    intros H. apply IH. congruence.
  - discriminate.
  - intros H. inversion H; subst. eapply cell_lt_err; eauto.
Qed.

Lemma insertion_pass_err (items racc : list (nat * cell)) (e : exn) :
  np.insertion_pass items racc = Err e -> e = TypeError.
Proof.
  revert racc. induction items as [|x items IH]; intros racc; simpl;
    [discriminate|].
  destruct (np.insert x racc) as [racc'|e'] eqn:E; simpl.
  - apply IH.
  - intros H. inversion H; subst. eapply insert_err; eauto.
Qed.

Lemma argsort_err (v : list cell) (e : exn) :
  np.argsort v = Err e -> e = TypeError.
Proof.
  unfold np.argsort.
  destruct (np.insertion_pass (np.enumerate v) []) eqn:E; simpl;
    [discriminate|].
  intros H. inversion H; subst. eapply insertion_pass_err; eauto.
Qed.

Lemma sort_inv (self self' : SqueueGUIModel.t) (column : Z)
      (order : Qt.SortOrder) :
  SqueueGUIModel.sort column order self = Return tt self' ->
  (exists k, py.index_of (np.ncols (SqueueGUIModel._array self)) column = Ok k)
  /\ SqueueGUIModel._headers self' = SqueueGUIModel._headers self
  /\ SqueueGUIModel._sortby self' = column
  /\ np.ncols (SqueueGUIModel._array self')
     = np.ncols (SqueueGUIModel._array self).
Proof.
  destruct self as [a0 h0 r0 c0 sb so].
  unfold SqueueGUIModel.sort, bind, modify, get, lift, np.column,
    SqueueGUIModel.array. simpl.
  destruct (py.index_of (np.ncols a0) column) as [k|] eqn:E; simpl;
    [|discriminate].
  destruct (np.argsort _); simpl; [|discriminate].
  intros H. inversion H; subst; simpl. eauto.
Qed.

Lemma update_model_inv (self self' : SqueueGUIModel.t)
      (new_array : np.ndarray) (new_headers : list string) :
  SqueueGUIModel.update_model new_array new_headers self = Return tt self' ->
  exists old_sortvar,
    py.getitem (SqueueGUIModel._headers self) (SqueueGUIModel._sortby self)
    = Ok old_sortvar
    /\ SqueueGUIModel._headers self' = new_headers
    /\ SqueueGUIModel._sortby self' = Z.of_nat (rebound old_sortvar new_headers)
    /\ np.ncols (SqueueGUIModel._array self') = np.ncols new_array.
Proof.
  destruct self as [a0 h0 r0 c0 sb so].
  unfold SqueueGUIModel.update_model, bind, modify, get, gets, lift,
    SqueueGUIModel.headers, SqueueGUIModel.array.
  cbn [SqueueGUIModel._headers SqueueGUIModel._sortby].
  destruct (py.getitem h0 sb) as [old|] eqn:E; simpl; [|discriminate].
  destruct (py.contains old new_headers) eqn:Ec; simpl.
  - destruct (contains_index _ _ Ec) as (k & Hk & _ & _). rewrite Hk. simpl.
    destruct (rbind _ _); simpl; [|discriminate].
    intros H. inversion H; subst; simpl. exists old.
    unfold rebound. rewrite Ec, Hk. auto.
  - destruct (rbind _ _); simpl; [|discriminate].
    intros H. inversion H; subst; simpl. exists old.
    unfold rebound. rewrite Ec. auto.
Qed.

(** The invariant of the reachable states: one header per column, at
    least one header, and a stored sort column [headers] can be
    subscripted with. *)
Lemma reachable_inv (self : SqueueGUIModel.t) :
  reachable self ->
  np.ncols (SqueueGUIModel._array self)
  = List.length (SqueueGUIModel._headers self)
  /\ SqueueGUIModel._headers self <> []
  /\ exists k,
      py.index_of (List.length (SqueueGUIModel._headers self))
                  (SqueueGUIModel._sortby self) = Ok k.
Proof.
  induction 1 as [array headers Hc Hne
                 | self self' a h Hr IH Hc Hne Hu
                 | self self' column order Hr IH Hs].
  - simpl. repeat split; auto.
    exists 0%nat. apply (index_of_nat _ 0).
    destruct headers; [congruence | simpl; lia].
  - destruct (update_model_inv _ _ _ _ Hu) as (old & _ & Hh & Hs & Hn).
    rewrite Hh, Hs, Hn. repeat split; auto.
    exists (rebound old h). apply index_of_nat. now apply rebound_lt.
  - destruct IH as (Hc & Hne & _).
    destruct (sort_inv _ _ _ _ Hs) as ((k & Hk) & Hh & Hsb & Hn).
    rewrite Hh, Hsb, Hn. repeat split; auto.
    exists k. now rewrite <- Hc.
Qed.

Lemma update_model_raises (self s : SqueueGUIModel.t) (new_array : np.ndarray)
      (new_headers : list string) (old_sortvar : string) (e : exn) :
  py.getitem (SqueueGUIModel._headers self) (SqueueGUIModel._sortby self)
  = Ok old_sortvar ->
  (rebound old_sortvar new_headers < np.ncols new_array)%nat ->
  SqueueGUIModel.update_model new_array new_headers self = Raise e s ->
  e = TypeError.
Proof.
  destruct self as [a0 h0 r0 c0 sb so]. intros Hold Hlt.
  unfold SqueueGUIModel.update_model, bind, modify, get, gets, lift,
    SqueueGUIModel.headers, SqueueGUIModel.array.
  cbn [SqueueGUIModel._headers SqueueGUIModel._sortby] in *.
  rewrite Hold. simpl.
  assert (Hcol : forall e',
    (v <-r np.column new_array (Z.of_nat (rebound old_sortvar new_headers)) ;;
     np.argsort v)%py = Err e' -> e' = TypeError).
  { intros e'. unfold np.column. rewrite (index_of_nat _ _ Hlt). simpl.
    apply argsort_err. }
  unfold rebound in Hcol.
  destruct (py.contains old_sortvar new_headers) eqn:Ec; simpl.
  - destruct (contains_index _ _ Ec) as (k & Hk & _ & _).
    rewrite Hk in *. simpl.
    destruct (rbind _ _) eqn:E; simpl; [discriminate|].
    intros H. inversion H; subst. now apply Hcol.
  - change (Z.of_nat 0) with 0%Z in Hcol.
    destruct (rbind _ _) eqn:E; simpl; [discriminate|].
    intros H. inversion H; subst. now apply Hcol.
Qed.

(** C10, as the code has it.  In every state the table can reach, the
    stored sort column is a subscript the headers list accepts: it lies in
    [-n .. n) for [n] headers, the lookup of its name succeeds, and the
    next [update_model] with an array that has one column per header
    does not raise [IndexError]. *)
Theorem sortby_subscript_when_reachable (self : SqueueGUIModel.t) :
  reachable self ->
  sortby_valid self
  /\ (- Z.of_nat (List.length (SqueueGUIModel._headers self))
      <= SqueueGUIModel._sortby self
      < Z.of_nat (List.length (SqueueGUIModel._headers self)))%Z
  /\ forall new_array new_headers s,
      np.ncols new_array = List.length new_headers -> new_headers <> [] ->
      SqueueGUIModel.update_model new_array new_headers self
      <> Raise IndexError s.
Proof.
  intros Hr. destruct (reachable_inv self Hr) as (_ & _ & k & Hk).
  assert (Hv : sortby_valid self).
  { unfold sortby_valid, py.getitem. rewrite Hk. simpl. eauto. }
  split; [exact Hv|]. split.
  - now destruct (index_of_bound _ _ _ Hk) as (_ & H & _).
  - intros a h s Hc Hne Hu. destruct Hv as [old Hold].
    assert (Hlt : (rebound old h < np.ncols a)%nat)
      by (rewrite Hc; now apply rebound_lt).
    pose proof (update_model_raises self s a h old IndexError Hold Hlt Hu).
    discriminate.
Qed.

Lemma sortby_subscript_when_reachable_witness :
  sortby_valid table_412
  /\ (- Z.of_nat (List.length (SqueueGUIModel._headers table_412))
      <= SqueueGUIModel._sortby table_412
      < Z.of_nat (List.length (SqueueGUIModel._headers table_412)))%Z
  /\ forall new_array new_headers s,
      np.ncols new_array = List.length new_headers -> new_headers <> [] ->
      SqueueGUIModel.update_model new_array new_headers table_412
      <> Raise IndexError s.
Proof.
  apply (sortby_subscript_when_reachable table_412).
  apply reach_init; [reflexivity | discriminate].
Defined.

(** C10, as stated, fails.  [sort(-1, order)] (a negative column is a
    subscript numpy accepts) returns normally on a reachable table and
    leaves -1 stored, which is not in [0 .. n).  And [sort(7, order)] on
    the seven-column table stores 7 before the column lookup raises
    [IndexError]; the next [update_model] then raises [IndexError] when it
    looks the sort column's name up. *)
Lemma sortby_out_of_range_after_sort :
  (exists self',
      SqueueGUIModel.sort (-1) Qt.DescendingOrder table_412 = Return tt self'
      /\ reachable self'
      /\ ~ (0 <= SqueueGUIModel._sortby self'
            < Z.of_nat (List.length (SqueueGUIModel._headers self')))%Z)
  /\ (exists self',
         SqueueGUIModel.sort 7 Qt.DescendingOrder table_412
         = Raise IndexError self'
         /\ SqueueGUIModel._sortby self' = 7%Z
         /\ SqueueGUIModel.update_model jobs_412 sqcols7 self'
            = Raise IndexError self').
Proof.
  split.
  - assert (H : exists self',
               SqueueGUIModel.sort (-1) Qt.DescendingOrder table_412
               = Return tt self' /\ SqueueGUIModel._sortby self' = (-1)%Z).
    { eexists. split; [vm_compute; reflexivity | reflexivity]. }
    destruct H as (self' & Hs & Hsb). exists self'.
    split; [exact Hs|]. split.
    + eapply reach_sort; [|exact Hs].
      apply reach_init; [reflexivity | discriminate].
    + rewrite Hsb. lia.
  - eexists. split; [vm_compute; reflexivity|].
    split; reflexivity.
Qed.

(** ** The dimensions of a reachable table *)

Lemma insert_ok_perm (x : nat * cell) (racc racc' : list (nat * cell)) :
  np.insert x racc = Ok racc' -> Permutation racc' (x :: racc).
Proof.
  revert racc'. induction racc as [|y rest IH]; simpl; intros racc' H.
  - inversion H. auto.
  - destruct (cell_lt (snd x) (snd y)) as [[|]|]; simpl in H;
      try discriminate.
    + destruct (np.insert x rest) as [rest'|]; simpl in H; [|discriminate].
      inversion H; subst. rewrite (IH rest' eq_refl). apply perm_swap.
    + inversion H. auto.
Qed.

Lemma insertion_pass_ok_perm (items racc racc' : list (nat * cell)) :
  np.insertion_pass items racc = Ok racc' -> Permutation racc' (items ++ racc).
Proof.
  revert racc. induction items as [|x items IH]; simpl; intros racc H.
  - inversion H. auto.
  - destruct (np.insert x racc) as [racc1|] eqn:E; simpl in H; [|discriminate].
    rewrite (IH _ H), (insert_ok_perm _ _ _ E).
    apply Permutation_sym, Permutation_middle.
Qed.

(** Whenever [argsort] returns, it returns a permutation of the row
    numbers. *)
Lemma argsort_ok_perm (v : list cell) (idx : list nat) :
  np.argsort v = Ok idx -> Permutation idx (seq 0 (List.length v)).
Proof.
  unfold np.argsort.
  destruct (np.insertion_pass (np.enumerate v) []) as [racc|] eqn:E; simpl;
    [|discriminate].
  intros H. inversion H; subst.
  rewrite <- enumerate_fst. apply Permutation_map.
  rewrite <- Permutation_rev, (insertion_pass_ok_perm _ _ _ E).
  now rewrite app_nil_r.
Qed.

Lemma sort_dims (self self' : SqueueGUIModel.t) (column : Z)
      (order : Qt.SortOrder) :
  SqueueGUIModel.sort column order self = Return tt self' ->
  np.shape (SqueueGUIModel._array self') = np.shape (SqueueGUIModel._array self)
  /\ SqueueGUIModel.r self' = SqueueGUIModel.r self
  /\ SqueueGUIModel.c self' = SqueueGUIModel.c self.
Proof.
  destruct self as [a0 h0 r0 c0 sb so].
  unfold SqueueGUIModel.sort, bind, modify, get, lift, np.column,
    SqueueGUIModel.array. simpl.
  destruct (py.index_of (np.ncols a0) column) as [k|]; simpl; [|discriminate].
  destruct (np.argsort _) as [idx|] eqn:E; simpl; [|discriminate].
  intros H. inversion H; subst; simpl.
  apply argsort_ok_perm, Permutation_length in E.
  rewrite length_seq, length_map in E.
  unfold np.shape; simpl. rewrite length_map.
  destruct (Qt.SortOrder_eqb order Qt.AscendingOrder);
    rewrite ?length_rev, E; auto.
Qed.

(** After every operation that returns, [rowCount()] and [columnCount()]
    are the dimensions of the installed array. *)
Lemma reachable_dimensions (self : SqueueGUIModel.t) :
  reachable self ->
  (SqueueGUIModel.r self, SqueueGUIModel.c self)
  = np.shape (SqueueGUIModel._array self).
Proof.
  induction 1 as [array headers Hc Hne
                 | self self' a h Hr IH Hc Hne Hu
                 | self self' column order Hr IH Hs].
  - reflexivity.
  - destruct (update_model_inv _ _ _ _ Hu) as (old & Hold & _).
    rewrite (update_model_as_sort self a h old Hold) in Hu.
    destruct (sort_dims _ _ _ _ Hu) as (H1 & H2 & H3).
    rewrite H1, H2, H3. reflexivity.
  - destruct (sort_dims _ _ _ _ Hs) as (H1 & H2 & H3).
    rewrite H1, H2, H3. exact IH.
Qed.

(** ** C5: rows that tie *)

(** C5, as the code has it.  On a table of at most 16 rows (which numpy's
    default [argsort] sorts by the insertion pass alone) [sort] returns on
    a typed table, and the rows that hold a given value [v] in the sort
    column are, top to bottom, in the order they had under
    [Qt.DescendingOrder] and in the reverse of that order under
    [Qt.AscendingOrder]. *)
Theorem sort_ties_by_flag (self : SqueueGUIModel.t) (column : Z)
        (order : Qt.SortOrder) (k : nat) (v : cell) :
  py.index_of (np.ncols (SqueueGUIModel._array self)) column = Ok k ->
  typed_array (SqueueGUIModel._array self) ->
  (List.length (np.rows (SqueueGUIModel._array self)) <= 16)%nat ->
  exists self',
    SqueueGUIModel.sort column order self = Return tt self'
    /\ rows_with k v (np.rows (SqueueGUIModel._array self'))
       = match order with
         | Qt.DescendingOrder =>
             rows_with k v (np.rows (SqueueGUIModel._array self))
         | Qt.AscendingOrder =>
             List.rev (rows_with k v (np.rows (SqueueGUIModel._array self)))
         end.
Proof.
  intros Hk Hty _.
  destruct (index_of_bound _ _ _ Hk) as (Hlt & _).
  destruct (typed_array_column _ _ Hty Hlt) as [kd Ht].
  exists (sorted_model k column order self).
  split; [now apply (sort_returns self column order k kd)|].
  unfold sorted_model; simpl. destruct order.
  - apply sorted_rows_ascending_ties.
  - apply sorted_rows_descending_ties.
Qed.

Lemma sort_ties_by_flag_witness :
  exists self',
    SqueueGUIModel.sort 0 Qt.AscendingOrder table_tie = Return tt self'
    /\ rows_with 0 (CInt 1) (np.rows (SqueueGUIModel._array self'))
       = List.rev (rows_with 0 (CInt 1)
                             (np.rows (SqueueGUIModel._array table_tie))).
Proof.
  apply (sort_ties_by_flag table_tie 0 Qt.AscendingOrder 0 (CInt 1)).
  - reflexivity.
  - reflexivity.
  - simpl. lia.
Defined.

(** C5, as stated, fails: two rows that tie on column 0 come out of
    [sort(0, Qt.AscendingOrder)] in the opposite order. *)
Lemma sort_swaps_tied_rows :
  np.rows (SqueueGUIModel._array table_tie)
  = [ [CInt 1; CStr "a"]; [CInt 1; CStr "b"] ]
  /\ exists self',
      SqueueGUIModel.sort 0 Qt.AscendingOrder table_tie = Return tt self'
      /\ np.rows (SqueueGUIModel._array self')
         = [ [CInt 1; CStr "b"]; [CInt 1; CStr "a"] ].
Proof.
  split; [reflexivity|].
  eexists. split; [vm_compute; reflexivity | reflexivity].
Qed.

(** ** C9: sorting twice *)

Lemma StronglySorted_perm_eq {A} (R : A -> A -> Prop) :
  (forall a b, R a b -> R b a -> a = b) ->
  forall l1 l2 : list A,
    Permutation l1 l2 -> StronglySorted R l1 -> StronglySorted R l2 -> l1 = l2.
Proof.
  intros Hanti. induction l1 as [|a l1 IH]; intros l2 Hp H1 H2.
  - apply Permutation_nil in Hp. now subst.
  - destruct l2 as [|b l2].
    + apply Permutation_sym, Permutation_nil in Hp. discriminate.
    + inversion H1 as [|? ? H1' Ha]; subst.
      inversion H2 as [|? ? H2' Hb]; subst.
      assert (a = b).
      { assert (Hin1 : In a (b :: l2))
          by (eapply Permutation_in; [exact Hp | now left]).
        assert (Hin2 : In b (a :: l1))
          by (eapply Permutation_in;
              [apply Permutation_sym; exact Hp | now left]).
        destruct Hin1 as [->|Hin1]; auto.
        destruct Hin2 as [->|Hin2]; auto.
        rewrite Forall_forall in Ha, Hb. auto. }
      subst. f_equal. apply IH; auto.
      eapply Permutation_cons_inv; eauto.
Qed.

(** A column without repeated values that is sorted is strictly sorted,
    and so are its rows. *)
Lemma strictly_sorted_rows (k : nat) (R S : cell -> cell -> Prop)
      (rows : list (list cell)) :
  (forall a b, R a b -> a <> b -> S a b) ->
  StronglySorted R (map (key k) rows) -> NoDup (map (key k) rows) ->
  StronglySorted (fun x y => S (key k x) (key k y)) rows.
Proof.
  intros HRS. induction rows as [|row rows IH]; simpl; intros Hs Hnd.
  - constructor.
  - inversion Hs as [|? ? Hs' Hf]; subst.
    inversion Hnd as [|? ? Hnin Hnd']; subst.
    constructor; auto.
    rewrite Forall_map in Hf. rewrite Forall_forall in *.
    intros y Hy. apply HRS; auto.
    intros E. apply Hnin. rewrite E. now apply in_map.
Qed.

Lemma sorted_rows_twice_keys (k : nat) (order : Qt.SortOrder)
      (rows : list (list cell)) :
  map (key k) (sorted_rows k order (sorted_rows k order rows))
  = map (key k) (sorted_rows k order rows).
Proof.
  assert (Hp : Permutation
                 (map (key k) (sorted_rows k order (sorted_rows k order rows)))
                 (map (key k) (sorted_rows k order rows)))
    by apply Permutation_map, sorted_rows_perm.
  destruct order.
  - apply (StronglySorted_perm_eq (fun a b => cell_le b a)); auto.
    + intros a b H1 H2. now apply cell_le_antisym.
    + apply sorted_rows_ascending_keys.
    + apply sorted_rows_ascending_keys.
  - apply (StronglySorted_perm_eq cell_le); auto.
    + apply cell_le_antisym.
    + apply sorted_rows_descending_keys.
    + apply sorted_rows_descending_keys.
Qed.

Lemma sorted_rows_twice (k : nat) (order : Qt.SortOrder)
      (rows : list (list cell)) :
  NoDup (map (key k) rows) ->
  sorted_rows k order (sorted_rows k order rows) = sorted_rows k order rows.
Proof.
  intros Hnd.
  assert (Hnd1 : NoDup (map (key k) (sorted_rows k order rows))).
  { eapply Permutation_NoDup; [|exact Hnd].
    apply Permutation_sym, Permutation_map, sorted_rows_perm. }
  assert (Hnd2 : NoDup (map (key k)
                            (sorted_rows k order (sorted_rows k order rows)))).
  { eapply Permutation_NoDup; [|exact Hnd1].
    apply Permutation_sym, Permutation_map, sorted_rows_perm. }
  destruct order.
  - apply (StronglySorted_perm_eq
             (fun x y => cell_ltb (key k y) (key k x) = true)).
    + intros x y H1 H2. apply cell_ltb_asym in H1. congruence.
    + apply sorted_rows_perm.
    + apply (strictly_sorted_rows k (fun a b => cell_le b a)
                                  (fun a b => cell_ltb b a = true)); auto.
      * intros a b Hle Hne. destruct (cell_ltb b a) eqn:E; auto.
        exfalso. apply Hne. symmetry. now apply cell_ltb_total.
      * apply sorted_rows_ascending_keys.
    + apply (strictly_sorted_rows k (fun a b => cell_le b a)
                                  (fun a b => cell_ltb b a = true)); auto.
      * intros a b Hle Hne. destruct (cell_ltb b a) eqn:E; auto.
        exfalso. apply Hne. symmetry. now apply cell_ltb_total.
      * apply sorted_rows_ascending_keys.
  - apply (StronglySorted_perm_eq
             (fun x y => cell_ltb (key k x) (key k y) = true)).
    + intros x y H1 H2. apply cell_ltb_asym in H1. congruence.
    + apply sorted_rows_perm.
    + apply (strictly_sorted_rows k cell_le
                                  (fun a b => cell_ltb a b = true)); auto.
      * intros a b Hle Hne. destruct (cell_ltb a b) eqn:E; auto.
        exfalso. apply Hne. now apply cell_ltb_total.
      * apply sorted_rows_descending_keys.
    + apply (strictly_sorted_rows k cell_le
                                  (fun a b => cell_ltb a b = true)); auto.
      * intros a b Hle Hne. destruct (cell_ltb a b) eqn:E; auto.
        exfalso. apply Hne. now apply cell_ltb_total.
      * apply sorted_rows_descending_keys.
Qed.

(** C9, as the code has it.  On a typed table [sort(c, d)] returns, and
    so does a second [sort(c, d)]; the second call leaves the values of
    the sort column as the first left them, and leaves the whole table as
    the first left it when no two rows hold the same value in that
    column. *)
Theorem sort_twice (self : SqueueGUIModel.t) (column : Z)
        (order : Qt.SortOrder) (k : nat) :
  py.index_of (np.ncols (SqueueGUIModel._array self)) column = Ok k ->
  typed_array (SqueueGUIModel._array self) ->
  exists once twice,
    SqueueGUIModel.sort column order self = Return tt once
    /\ SqueueGUIModel.sort column order once = Return tt twice
    /\ column_values k (SqueueGUIModel._array twice)
       = column_values k (SqueueGUIModel._array once)
    /\ (NoDup (column_values k (SqueueGUIModel._array self)) -> twice = once).
Proof.
  intros Hk Hty.
  destruct (index_of_bound _ _ _ Hk) as (Hlt & _).
  destruct (typed_array_column _ _ Hty Hlt) as [kd Ht].
  exists (sorted_model k column order self).
  exists (sorted_model k column order (sorted_model k column order self)).
  split; [now apply (sort_returns self column order k kd)|].
  split.
  - apply (sort_returns _ column order k kd); [exact Hk|].
    eapply typed_perm; [|exact Ht].
    apply Permutation_sym, Permutation_map. simpl. apply sorted_rows_perm.
  - unfold sorted_model, column_values; simpl. split.
    + apply sorted_rows_twice_keys.
    + intros Hnd. now rewrite sorted_rows_twice.
Qed.

Lemma sort_twice_witness :
  exists once twice,
    SqueueGUIModel.sort 5 Qt.AscendingOrder table_412 = Return tt once
    /\ SqueueGUIModel.sort 5 Qt.AscendingOrder once = Return tt twice
    /\ column_values 5 (SqueueGUIModel._array twice)
       = column_values 5 (SqueueGUIModel._array once)
    /\ (NoDup (column_values 5 (SqueueGUIModel._array table_412)) ->
        twice = once).
Proof.
  apply (sort_twice table_412 5 Qt.AscendingOrder 5).
  - reflexivity.
  - reflexivity.
Defined.

(** C9, as stated, fails: on two rows that tie, a second
    [sort(0, Qt.AscendingOrder)] swaps them back, so the row order after
    two calls is not the row order after one. *)
Lemma sort_twice_swaps_tied_rows :
  exists once twice,
    SqueueGUIModel.sort 0 Qt.AscendingOrder table_tie = Return tt once
    /\ SqueueGUIModel.sort 0 Qt.AscendingOrder once = Return tt twice
    /\ np.rows (SqueueGUIModel._array once)
       = [ [CInt 1; CStr "b"]; [CInt 1; CStr "a"] ]
    /\ np.rows (SqueueGUIModel._array twice)
       = [ [CInt 1; CStr "a"]; [CInt 1; CStr "b"] ].
Proof.
  eexists. eexists.
  split; [vm_compute; reflexivity|].
  split; [vm_compute; reflexivity|].
  split; reflexivity.
Qed.

(** ** C4: the auto-refresh rate *)

Lemma py_int_str (n : Z) : py_int (py_str n) = Ok n.
Proof.
  unfold py_int, py_str.
  rewrite DecimalString.NilZero.isi.
  - now rewrite DecimalZ.of_to.
  - destruct n; simpl; try discriminate.
    intros H. inversion H as [H'].
    now apply DecimalPos.Unsigned.to_uint_nonnil in H'.
  - destruct n; simpl; try discriminate.
    intros H. inversion H as [H'].
    now apply DecimalPos.Unsigned.to_uint_nonnil in H'.
Qed.

Lemma change_try_valid (n : Z) (self : SQGUIMainWindow.t) :
  (1 <= n <= 9999)%Z ->
  SQGUIMainWindow.change_autorefresh_rate_try (py_str n) self
  = Return tt
      (SQGUIMainWindow.set_areftmr
         (SQGUIMainWindow.QTimer_setInterval
            (n * 1000) (SQGUIMainWindow.areftmr self))
         (SQGUIMainWindow.set_arefrte (n * 1000) self)).
Proof.
  intros Hn.
  unfold SQGUIMainWindow.change_autorefresh_rate_try, bind, lift, modify, get,
    ret, raise.
  rewrite py_int_str.
  replace ((n >? 0)%Z && (n <? 10000)%Z) with true; [reflexivity|].
  symmetry. apply andb_true_iff. split.
  - apply Z.gtb_lt. lia.
  - apply Z.ltb_lt. lia.
Qed.

Lemma change_try_invalid (n : Z) (self : SQGUIMainWindow.t) :
  (n <= 0 \/ 10000 <= n)%Z ->
  SQGUIMainWindow.change_autorefresh_rate_try (py_str n) self
  = Raise AssertionError self.
Proof.
  intros Hn.
  unfold SQGUIMainWindow.change_autorefresh_rate_try, bind, lift, modify, get,
    ret, raise.
  rewrite py_int_str.
  replace ((n >? 0)%Z && (n <? 10000)%Z) with false; [reflexivity|].
  symmetry. apply andb_false_iff.
  destruct Hn; [left | right].
  - rewrite Z.gtb_ltb. apply Z.ltb_ge. lia.
  - apply Z.ltb_ge. lia.
Qed.

(** C4, as the code has it.  With fuel for one nested call, the handler
    returns on the numeral of every integer [n] and never raises.  For [n]
    in 1..9999 the rate and the timer's interval become [n] seconds and
    the text of the line edit is left alone.  For any other [n] the text
    becomes "1"; the rate is left alone only when the text already read
    "1", and otherwise, the change of text calling the handler again with
    "1", the rate and the timer's interval become 1 second. *)
Theorem change_autorefresh_rate_on_numeral
        (fuel : nat) (n : Z) (self : SQGUIMainWindow.t) :
  (2 <= fuel)%nat ->
  exists self',
    SQGUIMainWindow.change_autorefresh_rate fuel (py_str n) self
    = Some (Return tt self')
    /\ ((1 <= n <= 9999)%Z ->
        SQGUIMainWindow.arefrte self' = (n * 1000)%Z
        /\ SQGUIMainWindow.interval (SQGUIMainWindow.areftmr self')
           = (n * 1000)%Z
        /\ SQGUIMainWindow.w_arefrte self' = SQGUIMainWindow.w_arefrte self)
    /\ ((n <= 0 \/ 10000 <= n)%Z ->
        SQGUIMainWindow.w_arefrte self' = "1"%string
        /\ if String.eqb (SQGUIMainWindow.w_arefrte self) "1"
           then self' = self
           else SQGUIMainWindow.arefrte self' = 1000%Z
                /\ SQGUIMainWindow.interval (SQGUIMainWindow.areftmr self')
                   = 1000%Z).
Proof.
  intros Hfuel.
  destruct fuel as [|[|fuel]]; try lia.
  destruct (Z_le_dec 1 n) as [H1|H1]; [destruct (Z_le_dec n 9999) as [H2|H2]|].
  - eexists. split.
    + cbn [SQGUIMainWindow.change_autorefresh_rate].
      rewrite change_try_valid by lia. reflexivity.
    + split; [intros _; simpl; auto | intros; lia].
  - assert (Hn : (n <= 0 \/ 10000 <= n)%Z) by lia.
    cbn [SQGUIMainWindow.change_autorefresh_rate].
    rewrite (change_try_invalid n self Hn).
    unfold SQGUIMainWindow.w_arefrte_setText.
    change (py_str 1) with "1"%string.
    destruct (String.eqb (SQGUIMainWindow.w_arefrte self) "1") eqn:E.
    + exists self. split; [reflexivity|].
      split; [intros; lia|]. intros _. apply String.eqb_eq in E. auto.
    + change "1"%string with (py_str 1) at 1.
      rewrite change_try_valid by lia.
      eexists. split; [reflexivity|].
      split; [intros; lia|]. intros _. simpl. auto.
  - assert (Hn : (n <= 0 \/ 10000 <= n)%Z) by lia.
    cbn [SQGUIMainWindow.change_autorefresh_rate].
    rewrite (change_try_invalid n self Hn).
    unfold SQGUIMainWindow.w_arefrte_setText.
    change (py_str 1) with "1"%string.
    destruct (String.eqb (SQGUIMainWindow.w_arefrte self) "1") eqn:E.
    + exists self. split; [reflexivity|].
      split; [intros; lia|]. intros _. apply String.eqb_eq in E. auto.
    + change "1"%string with (py_str 1) at 1.
      rewrite change_try_valid by lia.
      eexists. split; [reflexivity|].
      split; [intros; lia|]. intros _. simpl. auto.
Qed.

Lemma change_autorefresh_rate_on_numeral_witness :
  exists self',
    SQGUIMainWindow.change_autorefresh_rate
      2 (py_str 9999) (SQGUIMainWindow.__init__ "alice")
    = Some (Return tt self')
    /\ ((1 <= 9999 <= 9999)%Z ->
        SQGUIMainWindow.arefrte self' = (9999 * 1000)%Z
        /\ SQGUIMainWindow.interval (SQGUIMainWindow.areftmr self')
           = (9999 * 1000)%Z
        /\ SQGUIMainWindow.w_arefrte self'
           = SQGUIMainWindow.w_arefrte (SQGUIMainWindow.__init__ "alice"))
    /\ ((9999 <= 0 \/ 10000 <= 9999)%Z ->
        SQGUIMainWindow.w_arefrte self' = "1"%string
        /\ if String.eqb
                (SQGUIMainWindow.w_arefrte (SQGUIMainWindow.__init__ "alice"))
                "1"
           then self' = SQGUIMainWindow.__init__ "alice"
           else SQGUIMainWindow.arefrte self' = 1000%Z
                /\ SQGUIMainWindow.interval (SQGUIMainWindow.areftmr self')
                   = 1000%Z).
Proof.
  apply (change_autorefresh_rate_on_numeral
           2 9999 (SQGUIMainWindow.__init__ "alice")).
  lia.
Defined.

(** C4, as stated, fails.  The user sets the line edit to "5", and the
    rate is 5 seconds; the user then sets it to "0": the handler rejects
    0, resets the text to "1", and the rate in effect afterwards is 1
    second, not the 5 seconds in effect before.  No exception leaves the
    handler. *)
Lemma invalid_rate_resets_interval :
  exists s5 s0,
    SQGUIMainWindow.w_arefrte_edit 2 (py_str 5) (SQGUIMainWindow.__init__ "alice")
    = Some (Return tt s5)
    /\ SQGUIMainWindow.arefrte s5 = 5000%Z
    /\ SQGUIMainWindow.w_arefrte_edit 2 (py_str 0) s5 = Some (Return tt s0)
    /\ SQGUIMainWindow.w_arefrte s0 = "1"%string
    /\ SQGUIMainWindow.arefrte s0 = 1000%Z
    /\ SQGUIMainWindow.arefrte s0 <> SQGUIMainWindow.arefrte s5.
Proof.
  eexists. eexists.
  split; [vm_compute; reflexivity|].
  split; [reflexivity|].
  split; [vm_compute; reflexivity|].
  split; [reflexivity|].
  split; [reflexivity|].
  simpl. discriminate.
Qed.

(** ** C2: a refresh cycle that fails *)

Lemma index_absent (x : string) (l : list string) :
  py.contains x l = false -> py.index x l = Err ValueError.
Proof.
  unfold py.contains. induction l as [|y l IH]; simpl; auto.
  rewrite (String.eqb_sym y x). destruct (String.eqb x y); simpl; [discriminate|].
  intros H. now rewrite IH.
Qed.

Lemma loc_raises (name : string) (df : pd.DataFrame) (e : exn) :
  pd.loc name df = Err e -> e = KeyError.
Proof. unfold pd.loc. destruct (py.index name (pd.columns df)); congruence. Qed.

Lemma locs_absent (names : list string) (df : pd.DataFrame) :
  existsb (fun col => negb (py.contains col (pd.columns df))) names = true ->
  pd.locs names df = Err KeyError.
Proof.
  induction names as [|n names IH]; simpl; [discriminate|].
  intros H. destruct (pd.loc n df) as [k|e] eqn:E; simpl.
  - apply orb_true_iff in H. destruct H as [H|H].
    + apply negb_true_iff in H. unfold pd.loc in E.
      rewrite (index_absent _ _ H) in E. discriminate.
    + now rewrite (IH H).
  - now rewrite (loc_raises _ _ _ E).
Qed.

(** C2, as the code has it.  When the query raises or a column of the
    window is absent from the frame, [refresh] itself raises: the
    exception is the query's, or [KeyError], and it leaves [refresh]
    uncaught.  In the state it leaves, the table model, the timer and the
    rate are what they were, and the refresh counter is one more. *)
Theorem failed_refresh_raises (squeue : result (list json.object))
        (self : SQGUIMainWindow.t) :
  cycle_fails squeue self = true ->
  exists e self',
    SQGUIMainWindow.refresh squeue self = Raise e self'
    /\ e = match squeue with Err e0 => e0 | Ok _ => KeyError end
    /\ SQGUIMainWindow.sqmodel self' = SQGUIMainWindow.sqmodel self
    /\ SQGUIMainWindow.areftmr self' = SQGUIMainWindow.areftmr self
    /\ SQGUIMainWindow.arefrte self' = SQGUIMainWindow.arefrte self
    /\ SQGUIMainWindow.arefcnt self' = (SQGUIMainWindow.arefcnt self + 1)%Z.
Proof.
  intros Hf. destruct squeue as [jobs|e0]; simpl in Hf.
  - unfold SQGUIMainWindow.refresh, bind, modify, lift, get. simpl.
    unfold pd.getitem.
    rewrite (locs_absent (SQGUIMainWindow.sqcols self) (pd.from_dict jobs) Hf).
    simpl. eexists. eexists. split; [reflexivity|].
    repeat split; reflexivity.
  - unfold SQGUIMainWindow.refresh, bind, modify, lift. simpl.
    eexists. eexists. split; [reflexivity|].
    repeat split; reflexivity.
Qed.

Lemma failed_refresh_raises_witness :
  exists e self',
    SQGUIMainWindow.refresh
      (Ok [ [("job_id"%string, json.JInt 1)] ])
      (SQGUIMainWindow.__init__ "alice")
    = Raise e self'
    /\ e = KeyError
    /\ SQGUIMainWindow.sqmodel self'
       = SQGUIMainWindow.sqmodel (SQGUIMainWindow.__init__ "alice")
    /\ SQGUIMainWindow.areftmr self'
       = SQGUIMainWindow.areftmr (SQGUIMainWindow.__init__ "alice")
    /\ SQGUIMainWindow.arefrte self'
       = SQGUIMainWindow.arefrte (SQGUIMainWindow.__init__ "alice")
    /\ SQGUIMainWindow.arefcnt self'
       = (SQGUIMainWindow.arefcnt (SQGUIMainWindow.__init__ "alice") + 1)%Z.
Proof.
  apply (failed_refresh_raises
           (Ok [ [("job_id"%string, json.JInt 1)] ])
           (SQGUIMainWindow.__init__ "alice")).
  reflexivity.
Defined.

(** C2, as stated, fails: when the query raises, [refresh] does not
    return; the exception propagates out of it to whatever called it (the
    timer's signal or the button's). *)
Lemma failed_refresh_not_caught :
  returns (SQGUIMainWindow.refresh (Err CalledProcessError)
                                   (SQGUIMainWindow.__init__ "alice"))
  = false
  /\ exists self',
      SQGUIMainWindow.refresh (Err CalledProcessError)
                              (SQGUIMainWindow.__init__ "alice")
      = Raise CalledProcessError self'.
Proof.
  split; [reflexivity|]. eexists. vm_compute. reflexivity.
Qed.

(** ** C6: the snapshot a refresh builds *)

Lemma locs_present (names : list string) (df : pd.DataFrame) :
  existsb (fun col => negb (py.contains col (pd.columns df))) names = false ->
  exists ks,
    pd.locs names df = Ok ks
    /\ Forall2 (fun name k =>
                  (k < List.length (pd.columns df))%nat
                  /\ nth k (pd.columns df) EmptyString = name) names ks.
Proof.
  induction names as [|n names IH]; simpl; intros H.
  - exists []. split; [reflexivity | constructor].
  - apply orb_false_iff in H. destruct H as [Hn Hr].
    apply negb_false_iff in Hn.
    destruct (contains_index _ _ Hn) as (k & Hk & Hlt & Hnth).
    destruct (IH Hr) as (ks & Hks & Hf).
    exists (k :: ks). unfold pd.loc. rewrite Hk. simpl. rewrite Hks. simpl.
    split; [reflexivity|]. constructor; auto.
Qed.

Lemma getitem_from_dict (jobs : list json.object) (cols : list string) :
  required_column_absent jobs cols = false ->
  pd.getitem (pd.from_dict jobs) cols
  = Ok {| pd.columns := cols; pd.values := map (project cols) jobs |}.
Proof.
  intros H. unfold pd.getitem.
  destruct (locs_present cols (pd.from_dict jobs) H) as (ks & Hks & Hf).
  rewrite Hks. simpl. f_equal. f_equal.
  rewrite map_map. apply map_ext. intros o.
  unfold project. simpl in Hf. clear H Hks.
  induction Hf as [|name k names ks' [Hlt Hnth] _ IH]; simpl; auto.
  f_equal; auto.
  rewrite (nth_indep _ CNaN (field EmptyString o))
    by (rewrite length_map; exact Hlt).
  rewrite (map_nth (fun key => field key o)). unfold field. now rewrite Hnth.
Qed.

Lemma filter_map_comm {A B} (f : B -> bool) (g : A -> B) (l : list A) :
  filter f (map g l) = map g (filter (fun x => f (g x)) l).
Proof.
  induction l as [|a l IH]; simpl; auto.
  destruct (f (g a)); simpl; now rewrite IH.
Qed.

Lemma filter_filter_and {A} (f g : A -> bool) (l : list A) :
  filter f (filter g l) = filter (fun x => g x && f x) l.
Proof.
  induction l as [|a l IH]; simpl; auto.
  destruct (g a); simpl; [destruct (f a)|]; now rewrite IH.
Qed.




(** C6 (the code at the failing input).  When the queue is empty the
    frame built from no record has no column, selecting the window's
    columns raises [KeyError], and [refresh] raises it: no snapshot is
    installed and the table keeps what it held. *)
Theorem refresh_empty_queue_raises (user : string) :
  exists self',
    SQGUIMainWindow.refresh (Ok []) (SQGUIMainWindow.__init__ user)
    = Raise KeyError self'
    /\ SQGUIMainWindow.sqmodel self'
       = SQGUIMainWindow.sqmodel (SQGUIMainWindow.__init__ user).
Proof.
  eexists. split; [vm_compute; reflexivity | reflexivity].
Qed.

(** The scenario of two records, one RUNNING and one COMPLETED: the table
    gets the one RUNNING row, with its seven cells in the order of the
    columns and the extra field dropped. *)
Example refresh_two_records :
  exists self',
    SQGUIMainWindow.refresh
      (Ok [ [ ("job_id", json.JInt 1); ("job_state", json.JStr "RUNNING");
              ("user_name", json.JStr "alice"); ("qos", json.JStr "normal");
              ("node_count", json.JInt 1); ("cpus", json.JInt 4);
              ("start_time", json.JInt 18000); ("partition", json.JStr "gpu") ];
            [ ("job_id", json.JInt 2); ("job_state", json.JStr "COMPLETED");
              ("user_name", json.JStr "bob"); ("qos", json.JStr "normal");
              ("node_count", json.JInt 1); ("cpus", json.JInt 1);
              ("start_time", json.JInt 0); ("partition", json.JStr "gpu") ] ]%string)
      (SQGUIMainWindow.__init__ "alice")
    = Return tt self'
    /\ np.rows (SqueueGUIModel._array (SQGUIMainWindow.sqmodel self'))
       = [ [ CInt 1; CStr "RUNNING"; CStr "alice"; CStr "normal"; CInt 1;
             CInt 4; CTime 18000 ] ].
Proof.
  eexists. split; [vm_compute; reflexivity | reflexivity].
Qed.

(** ** C7: how a timestamp cell is shown *)





(* ================================================================== *)
(** * Further properties of the table model *)

(** ** [sort] on any table *)

Lemma index_of_err (n : nat) (i : Z) (e : exn) :
  py.index_of n i = Err e -> e = IndexError.
Proof.
  unfold py.index_of.
  destruct (_ && _); [discriminate|]. destruct (_ && _); congruence.
Qed.

(** The three ways [sort] can end. *)
Lemma sort_cases (self : SqueueGUIModel.t) (column : Z) (order : Qt.SortOrder) :
  SqueueGUIModel.sort column order self
  = match py.index_of (np.ncols (SqueueGUIModel._array self)) column with
    | Err _ => Raise IndexError (stored column order self)
    | Ok k =>
        match np.argsort (column_values k (SqueueGUIModel._array self)) with
        | Err _ => Raise TypeError (stored column order self)
        | Ok idx =>
            Return tt
              (SqueueGUIModel.set_array
                 (np.take (SqueueGUIModel._array self)
                          (if Qt.SortOrder_eqb order Qt.AscendingOrder
                           then List.rev idx else idx))
                 (stored column order self))
        end
    end.
Proof.
  destruct self as [a0 h0 r0 c0 sb so].
  unfold SqueueGUIModel.sort, bind, modify, get, lift, np.column,
    SqueueGUIModel.array, stored, column_values, key. simpl.
  destruct (py.index_of (np.ncols a0) column) as [k|e] eqn:E; simpl.
  - destruct (np.argsort _) as [idx|e] eqn:E2; simpl; [reflexivity|].
    now rewrite (argsort_err _ _ E2).
  - now rewrite (index_of_err _ _ _ E).
Qed.

Lemma take_perm (a : np.ndarray) (idx : list nat) :
  Permutation idx (seq 0 (List.length (np.rows a))) ->
  Permutation (np.rows (np.take a idx)) (np.rows a).
Proof.
  intros H. simpl.
  rewrite (Permutation_map (fun i => nth i (np.rows a) []) H).
  change (fun i => nth i (np.rows a) []) with (pick (np.rows a)).
  now rewrite map_pick_seq.
Qed.

(** X1.  Whenever [sort] returns, whatever the cells are, the table holds
    exactly the rows it held, none dropped and none repeated; the headers,
    [r] and [c] are untouched, and the column and order passed are the
    stored sort state. *)
Theorem sort_permutes_rows (self self' : SqueueGUIModel.t) (column : Z)
        (order : Qt.SortOrder) :
  SqueueGUIModel.sort column order self = Return tt self' ->
  Permutation (np.rows (SqueueGUIModel._array self'))
              (np.rows (SqueueGUIModel._array self))
  /\ np.ncols (SqueueGUIModel._array self')
     = np.ncols (SqueueGUIModel._array self)
  /\ SqueueGUIModel._headers self' = SqueueGUIModel._headers self
  /\ (SqueueGUIModel.r self', SqueueGUIModel.c self')
     = (SqueueGUIModel.r self, SqueueGUIModel.c self)
  /\ SqueueGUIModel._sortby self' = column
  /\ SqueueGUIModel._sortord self' = order.
Proof.
  rewrite sort_cases.
  destruct (py.index_of _ column) as [k|]; [|discriminate].
  destruct (np.argsort _) as [idx|] eqn:E; [|discriminate].
  intros H. inversion H; subst; clear H.
  apply argsort_ok_perm in E. unfold column_values in E.
  rewrite length_map in E.
  destruct self as [a0 h0 r0 c0 sb so]; simpl in *.
  repeat split.
  change (Permutation
            (np.rows (np.take a0 (if Qt.SortOrder_eqb order Qt.AscendingOrder
                                  then List.rev idx else idx)))
            (np.rows a0)).
  apply take_perm.
  destruct (Qt.SortOrder_eqb order Qt.AscendingOrder); auto.
  now rewrite <- Permutation_rev.
Qed.

Lemma sort_permutes_rows_witness :
  Permutation
    (np.rows (SqueueGUIModel._array
                (state_of (SqueueGUIModel.sort 5 Qt.AscendingOrder table_412))))
    (np.rows (SqueueGUIModel._array table_412))
  /\ np.ncols (SqueueGUIModel._array
                 (state_of (SqueueGUIModel.sort 5 Qt.AscendingOrder table_412)))
     = np.ncols (SqueueGUIModel._array table_412)
  /\ SqueueGUIModel._headers
       (state_of (SqueueGUIModel.sort 5 Qt.AscendingOrder table_412))
     = SqueueGUIModel._headers table_412
  /\ (SqueueGUIModel.r
        (state_of (SqueueGUIModel.sort 5 Qt.AscendingOrder table_412)),
      SqueueGUIModel.c
        (state_of (SqueueGUIModel.sort 5 Qt.AscendingOrder table_412)))
     = (SqueueGUIModel.r table_412, SqueueGUIModel.c table_412)
  /\ SqueueGUIModel._sortby
       (state_of (SqueueGUIModel.sort 5 Qt.AscendingOrder table_412)) = 5%Z
  /\ SqueueGUIModel._sortord
       (state_of (SqueueGUIModel.sort 5 Qt.AscendingOrder table_412))
     = Qt.AscendingOrder.
Proof.
  apply (sort_permutes_rows table_412 _ 5 Qt.AscendingOrder).
  vm_compute. reflexivity.
Defined.

(** X2.  Whenever [sort] raises, it raises [IndexError], and then the
    column is no subscript of the array's columns, or [TypeError]; the
    rows, the headers, [r] and [c] are as they were, but the column and
    order passed have already been stored as the sort state. *)
Theorem sort_raises_after_storing (self self' : SqueueGUIModel.t) (column : Z)
        (order : Qt.SortOrder) (e : exn) :
  SqueueGUIModel.sort column order self = Raise e self' ->
  self' = stored column order self
  /\ (e = IndexError \/ e = TypeError)
  /\ (e = IndexError <->
      (column < - Z.of_nat (np.ncols (SqueueGUIModel._array self))
       \/ Z.of_nat (np.ncols (SqueueGUIModel._array self)) <= column)%Z).
Proof.
  rewrite sort_cases.
  destruct (py.index_of _ column) as [k|e0] eqn:E.
  - destruct (np.argsort _) as [idx|]; [discriminate|].
    intros H. inversion H; subst. split; [reflexivity|]. split; [now right|].
    destruct (index_of_bound _ _ _ E) as (_ & Hb & _).
    split; [discriminate | lia].
  - intros H. inversion H; subst. split; [reflexivity|]. split; [now left|].
    split; [|reflexivity]. intros _.
    unfold py.index_of in E.
    destruct ((0 <=? column)%Z
              && (column <? Z.of_nat (np.ncols (SqueueGUIModel._array self)))%Z)
             eqn:E1; [discriminate|].
    destruct ((- Z.of_nat (np.ncols (SqueueGUIModel._array self)) <=? column)%Z
              && (column <? 0)%Z) eqn:E2; [discriminate|].
    apply andb_false_iff in E1, E2.
    rewrite Z.leb_gt, Z.ltb_ge in E1. rewrite Z.leb_gt, Z.ltb_ge in E2. lia.
Qed.

Lemma sort_raises_after_storing_witness :
  state_of (SqueueGUIModel.sort 7 Qt.AscendingOrder table_412)
  = stored 7 Qt.AscendingOrder table_412
  /\ (IndexError = IndexError \/ IndexError = TypeError)
  /\ (IndexError = IndexError <->
      (7 < - Z.of_nat (np.ncols (SqueueGUIModel._array table_412))
       \/ Z.of_nat (np.ncols (SqueueGUIModel._array table_412)) <= 7)%Z).
Proof.
  apply (sort_raises_after_storing table_412 _ 7 Qt.AscendingOrder IndexError).
  vm_compute. reflexivity.
Defined.

(** X3.  The two directions mirror each other on every table:
    [sort(c, Qt.AscendingOrder)] and [sort(c, Qt.DescendingOrder)] either
    both return, the rows of the one in the reverse order of the rows of
    the other, or both raise the same exception. *)
Theorem sort_directions_mirror (self : SqueueGUIModel.t) (column : Z) :
  match SqueueGUIModel.sort column Qt.AscendingOrder self,
        SqueueGUIModel.sort column Qt.DescendingOrder self with
  | Return _ up, Return _ down =>
      np.rows (SqueueGUIModel._array up)
      = List.rev (np.rows (SqueueGUIModel._array down))
  | Raise e1 _, Raise e2 _ => e1 = e2
  | _, _ => False
  end.
Proof.
  rewrite !sort_cases.
  destruct (py.index_of _ column) as [k|]; [|reflexivity].
  destruct (np.argsort _) as [idx|]; [|reflexivity].
  simpl. now rewrite map_rev.
Qed.

(** ** [update_model] on any table *)

Lemma getitem_err (l : list string) (i : Z) (e : exn) :
  py.getitem l i = Err e -> e = IndexError.
Proof.
  unfold py.getitem.
  destruct (py.index_of (List.length l) i) eqn:E; simpl; [discriminate|].
  intros H. inversion H; subst. eapply index_of_err; eauto.
Qed.

(** X4.  When the stored sort column is no subscript of the headers,
    [update_model] raises [IndexError] at its first statement: nothing of
    the new array or the new headers is installed, and the table is left
    exactly as it was. *)
Theorem update_model_stale_sort_column
        (self : SqueueGUIModel.t) (new_array : np.ndarray)
        (new_headers : list string) (e : exn) :
  py.getitem (SqueueGUIModel._headers self) (SqueueGUIModel._sortby self)
  = Err e ->
  SqueueGUIModel.update_model new_array new_headers self
  = Raise IndexError self.
Proof.
  intros H.
  unfold SqueueGUIModel.update_model, bind, get, lift, SqueueGUIModel.headers.
  rewrite H. now rewrite (getitem_err _ _ _ H).
Qed.

Lemma update_model_stale_sort_column_witness :
  SqueueGUIModel.update_model jobs_412 sqcols7 table_stale
  = Raise IndexError table_stale.
Proof.
  apply (update_model_stale_sort_column table_stale jobs_412 sqcols7 IndexError).
  reflexivity.
Defined.

(** X5.  Whenever [update_model] returns, whatever the cells are, the
    table holds exactly the rows of the new array under the new headers,
    [r] and [c] are the new array's shape, the direction is the one
    stored before, and the stored sort column is a column of the new
    array, counted from 0. *)
Theorem update_model_installs (self self' : SqueueGUIModel.t)
        (new_array : np.ndarray) (new_headers : list string) :
  SqueueGUIModel.update_model new_array new_headers self = Return tt self' ->
  Permutation (np.rows (SqueueGUIModel._array self')) (np.rows new_array)
  /\ np.ncols (SqueueGUIModel._array self') = np.ncols new_array
  /\ SqueueGUIModel._headers self' = new_headers
  /\ (SqueueGUIModel.r self', SqueueGUIModel.c self') = np.shape new_array
  /\ SqueueGUIModel._sortord self' = SqueueGUIModel._sortord self
  /\ (0 <= SqueueGUIModel._sortby self' < Z.of_nat (np.ncols new_array))%Z.
Proof.
  intros Hu.
  destruct (update_model_inv _ _ _ _ Hu) as (old & Hold & _).
  rewrite (update_model_as_sort self new_array new_headers old Hold) in Hu.
  pose proof Hu as Hc. rewrite sort_cases in Hc.
  destruct (py.index_of _ _) as [k|] eqn:Ek; [|discriminate]. clear Hc.
  destruct (index_of_bound _ _ _ Ek) as (_ & Hb & _). simpl in Hb.
  rewrite sort_cases in Hu. rewrite Ek in Hu.
  destruct (np.argsort _) as [idx|] eqn:E; [|discriminate].
  inversion Hu; subst; clear Hu.
  apply argsort_ok_perm in E. unfold column_values in E.
  rewrite length_map in E. simpl in E.
  cbn [SqueueGUIModel.set_array stored SqueueGUIModel.set_sortord
       SqueueGUIModel.set_sortby installed SqueueGUIModel._array
       SqueueGUIModel._headers SqueueGUIModel.r SqueueGUIModel.c
       SqueueGUIModel._sortby SqueueGUIModel._sortord np.ncols np.take].
  split.
  { apply take_perm.
    destruct (Qt.SortOrder_eqb _ _); auto. now rewrite <- Permutation_rev. }
  repeat split; try reflexivity; lia.
Qed.

Lemma update_model_installs_witness :
  Permutation
    (np.rows (SqueueGUIModel._array
                (state_of (SqueueGUIModel.update_model jobs_412 sqcols7 table_tie))))
    (np.rows jobs_412)
  /\ np.ncols (SqueueGUIModel._array
                 (state_of (SqueueGUIModel.update_model jobs_412 sqcols7 table_tie)))
     = np.ncols jobs_412
  /\ SqueueGUIModel._headers
       (state_of (SqueueGUIModel.update_model jobs_412 sqcols7 table_tie))
     = sqcols7
  /\ (SqueueGUIModel.r
        (state_of (SqueueGUIModel.update_model jobs_412 sqcols7 table_tie)),
      SqueueGUIModel.c
        (state_of (SqueueGUIModel.update_model jobs_412 sqcols7 table_tie)))
     = np.shape jobs_412
  /\ SqueueGUIModel._sortord
       (state_of (SqueueGUIModel.update_model jobs_412 sqcols7 table_tie))
     = SqueueGUIModel._sortord table_tie
  /\ (0 <= SqueueGUIModel._sortby
             (state_of (SqueueGUIModel.update_model jobs_412 sqcols7 table_tie))
      < Z.of_nat (np.ncols jobs_412))%Z.
Proof.
  apply (update_model_installs table_tie _ jobs_412 sqcols7).
  vm_compute. reflexivity.
Defined.

(** ** The accessors *)

(** X6.  [setData] never changes the table and never returns [True]: with
    a valid index inside the table and [Qt.EditRole] it raises
    [AttributeError], and in every other case it returns [False]. *)
Theorem setData_never_stores (self : SqueueGUIModel.t)
        (index : Qt.QModelIndex) (value : cell) (role : Qt.ItemDataRole) :
  SqueueGUIModel.setData index value role self
  = if in_table self index && is_EditRole role
    then Raise AttributeError self
    else Return false self.
Proof.
  unfold SqueueGUIModel.setData, in_table, bind, get, ret, raise.
  destruct (Qt.isValid index); simpl; [|reflexivity].
  destruct role; simpl; rewrite ?andb_false_r; try reflexivity.
  rewrite andb_true_r, !Z.geb_leb.
  destruct (Z.ltb_spec (Qt.row index) 0), (Z.leb_spec 0 (Qt.row index));
    try lia; simpl; auto.
  destruct (Z.leb_spec (SqueueGUIModel.rowCount self) (Qt.row index)),
    (Z.ltb_spec (Qt.row index) (SqueueGUIModel.rowCount self));
    try lia; simpl; auto.
  destruct (Z.ltb_spec (Qt.column index) 0), (Z.leb_spec 0 (Qt.column index));
    try lia; simpl; auto.
  destruct (Z.leb_spec (SqueueGUIModel.columnCount self) (Qt.column index)),
    (Z.ltb_spec (Qt.column index) (SqueueGUIModel.columnCount self));
    try lia; simpl; auto.
Qed.

(** X7.  [data] returns [None], and does not raise, for an invalid
    index, for an index outside the table and for every role other than
    [Qt.DisplayRole], in any time zone. *)
Theorem data_outside_is_None (utcoffset : Z -> Z) (self : SqueueGUIModel.t)
        (index : Qt.QModelIndex) (role : Qt.ItemDataRole) :
  in_table self index && is_DisplayRole role = false ->
  SqueueGUIModel.data utcoffset self index role = Ok None.
Proof.
  unfold SqueueGUIModel.data, in_table.
  destruct (Qt.isValid index); simpl; [|reflexivity].
  rewrite !Z.geb_leb.
  destruct (Z.ltb_spec (Qt.row index) 0), (Z.leb_spec 0 (Qt.row index));
    try lia; simpl; auto.
  destruct (Z.leb_spec (SqueueGUIModel.rowCount self) (Qt.row index)),
    (Z.ltb_spec (Qt.row index) (SqueueGUIModel.rowCount self));
    try lia; simpl; auto.
  destruct (Z.ltb_spec (Qt.column index) 0), (Z.leb_spec 0 (Qt.column index));
    try lia; simpl; auto.
  destruct (Z.leb_spec (SqueueGUIModel.columnCount self) (Qt.column index)),
    (Z.ltb_spec (Qt.column index) (SqueueGUIModel.columnCount self));
    try lia; simpl; auto.
  destruct role; simpl; try reflexivity. discriminate.
Qed.

Lemma data_outside_is_None_witness :
  SqueueGUIModel.data utc_minus_5 table_412
    {| Qt.isValid := true; Qt.row := 3; Qt.column := 0 |} Qt.DisplayRole
  = Ok None.
Proof.
  apply (data_outside_is_None utc_minus_5 table_412
           {| Qt.isValid := true; Qt.row := 3; Qt.column := 0 |}
           Qt.DisplayRole).
  reflexivity.
Defined.

(** X8.  For a valid index inside the table and [Qt.DisplayRole], a cell
    that holds an [int] or a [str] is returned as it is, in any time
    zone. *)
Theorem data_plain_cell (utcoffset : Z -> Z) (self : SqueueGUIModel.t)
        (index : Qt.QModelIndex) :
  in_table self index = true ->
  plain (SqueueGUIModel.item self (Qt.row index) (Qt.column index)) = true ->
  SqueueGUIModel.data utcoffset self index Qt.DisplayRole
  = Ok (Some (SqueueGUIModel.item self (Qt.row index) (Qt.column index))).
Proof.
  unfold SqueueGUIModel.data, in_table. intros Hin Hp.
  apply andb_true_iff in Hin. destruct Hin as [Hin Hc].
  apply andb_true_iff in Hin. destruct Hin as [Hv Hr].
  apply andb_true_iff in Hr, Hc. destruct Hr as [Hr1 Hr2], Hc as [Hc1 Hc2].
  apply Z.leb_le in Hr1, Hc1. apply Z.ltb_lt in Hr2, Hc2.
  rewrite Hv. simpl. rewrite !Z.geb_leb.
  destruct (Z.ltb_spec (Qt.row index) 0); try lia.
  destruct (Z.leb_spec (SqueueGUIModel.rowCount self) (Qt.row index)); try lia.
  destruct (Z.ltb_spec (Qt.column index) 0); try lia.
  destruct (Z.leb_spec (SqueueGUIModel.columnCount self) (Qt.column index));
    try lia.
  simpl.
  destruct (SqueueGUIModel.item self (Qt.row index) (Qt.column index));
    simpl in Hp; try discriminate; reflexivity.
Qed.

Lemma data_plain_cell_witness :
  SqueueGUIModel.data utc_minus_5 table_412
    {| Qt.isValid := true; Qt.row := 2; Qt.column := 2 |} Qt.DisplayRole
  = Ok (Some (SqueueGUIModel.item table_412 2 2)).
Proof.
  apply (data_plain_cell utc_minus_5 table_412
           {| Qt.isValid := true; Qt.row := 2; Qt.column := 2 |}).
  - reflexivity.
  - reflexivity.
Defined.

(** X9.  [headerData] for [Qt.DisplayRole] and [Qt.Horizontal]: a section
    in [0 .. n) gets its header and a section from [n] on gets [None];
    the guard has no lower bound, so a section in [-n .. 0) gets the
    header counted from the end and a section below [-n] raises
    [IndexError]. *)
Theorem headerData_horizontal (self : SqueueGUIModel.t) (p_int : Z) :
  let n := Z.of_nat (List.length (SqueueGUIModel._headers self)) in
  SqueueGUIModel.headerData self p_int Qt.Horizontal Qt.DisplayRole
  = if (p_int <? - n)%Z then Err IndexError
    else if (p_int <? 0)%Z
         then Ok (Some (CStr (nth (Z.to_nat (p_int + n))
                                  (SqueueGUIModel._headers self) EmptyString)))
         else if (p_int <? n)%Z
              then Ok (Some (CStr (nth (Z.to_nat p_int)
                                       (SqueueGUIModel._headers self)
                                       EmptyString)))
              else Ok None.
Proof.
  intros n. unfold SqueueGUIModel.headerData, SqueueGUIModel.headers,
    py.getitem, py.index_of. fold n.
  destruct (Z.ltb_spec p_int (- n)), (Z.ltb_spec p_int 0),
    (Z.ltb_spec p_int n), (Z.leb_spec 0 p_int), (Z.leb_spec (- n) p_int);
    try lia; simpl; reflexivity.
Qed.

(** ** Sorting on one column after another *)

Lemma nondecreasing_filter (k : nat) (f : list cell -> bool)
      (rows : list (list cell)) :
  nondecreasing (map (key k) rows) ->
  nondecreasing (map (key k) (filter f rows)).
Proof.
  unfold nondecreasing.
  induction rows as [|row rows IH]; simpl; intros H; [constructor|].
  inversion H as [|? ? Hs Hf]; subst.
  destruct (f row); simpl; auto.
  constructor; auto.
  rewrite Forall_map in *. rewrite Forall_forall in *.
  intros y Hy. apply Hf. apply filter_In in Hy. tauto.
Qed.

(** X10.  On a typed table of at most 16 rows, [sort] on one column and
    then [sort] on another, both with [Qt.DescendingOrder], leaves the
    table ordered on the second column and, among the rows that hold the
    same value in the second column, ordered on the first. *)
Theorem sort_on_two_columns (self : SqueueGUIModel.t) (c1 c2 : Z)
        (k1 k2 : nat) (v : cell) :
  py.index_of (np.ncols (SqueueGUIModel._array self)) c1 = Ok k1 ->
  py.index_of (np.ncols (SqueueGUIModel._array self)) c2 = Ok k2 ->
  typed_array (SqueueGUIModel._array self) ->
  (List.length (np.rows (SqueueGUIModel._array self)) <= 16)%nat ->
  exists first second,
    SqueueGUIModel.sort c1 Qt.DescendingOrder self = Return tt first
    /\ SqueueGUIModel.sort c2 Qt.DescendingOrder first = Return tt second
    /\ nondecreasing (column_values k2 (SqueueGUIModel._array second))
    /\ nondecreasing
         (map (key k1)
              (rows_with k2 v (np.rows (SqueueGUIModel._array second)))).
Proof.
  intros H1 H2 Hty _.
  destruct (index_of_bound _ _ _ H1) as (Hlt1 & _).
  destruct (index_of_bound _ _ _ H2) as (Hlt2 & _).
  destruct (typed_array_column _ _ Hty Hlt1) as [kd1 Ht1].
  destruct (typed_array_column _ _ Hty Hlt2) as [kd2 Ht2].
  exists (sorted_model k1 c1 Qt.DescendingOrder self).
  exists (sorted_model k2 c2 Qt.DescendingOrder
                       (sorted_model k1 c1 Qt.DescendingOrder self)).
  split; [now apply (sort_returns self c1 _ k1 kd1)|].
  split.
  { apply (sort_returns _ c2 _ k2 kd2); [exact H2|].
    eapply typed_perm; [|exact Ht2].
    apply Permutation_sym, Permutation_map. simpl. apply sorted_rows_perm. }
  unfold sorted_model, column_values; simpl. split.
  - apply sorted_rows_descending_keys.
  - rewrite sorted_rows_descending_ties.
    apply nondecreasing_filter, sorted_rows_descending_keys.
Qed.

Lemma sort_on_two_columns_witness :
  exists first second,
    SqueueGUIModel.sort 4 Qt.DescendingOrder table_412 = Return tt first
    /\ SqueueGUIModel.sort 3 Qt.DescendingOrder first = Return tt second
    /\ nondecreasing (column_values 3 (SqueueGUIModel._array second))
    /\ nondecreasing
         (map (key 4)
              (rows_with 3 (CStr "normal")
                         (np.rows (SqueueGUIModel._array second)))).
Proof.
  apply (sort_on_two_columns table_412 4 3 4 3 (CStr "normal")).
  - reflexivity.
  - reflexivity.
  - reflexivity.
  - simpl. lia.
Defined.

(** ** Witnesses of the general facts about [sort] and the reachable
    tables *)

Lemma sort_orders_column_witness :
  exists self',
    SqueueGUIModel.sort 5 Qt.DescendingOrder table_412 = Return tt self'
    /\ Permutation (np.rows (SqueueGUIModel._array self'))
                   (np.rows (SqueueGUIModel._array table_412))
    /\ np.shape (SqueueGUIModel._array self')
       = np.shape (SqueueGUIModel._array table_412)
    /\ nondecreasing (column_values 5 (SqueueGUIModel._array self')).
Proof.
  apply (sort_orders_column table_412 5 Qt.DescendingOrder 5).
  - reflexivity.
  - reflexivity.
Defined.

Lemma reachable_dimensions_witness :
  (SqueueGUIModel.r table_412, SqueueGUIModel.c table_412)
  = np.shape (SqueueGUIModel._array table_412).
Proof.
  apply (reachable_dimensions table_412).
  apply reach_init; [reflexivity | discriminate].
Defined.

(* ================================================================== *)
(** * Further properties of the auto-refresh rate *)

(** The [try] body on any text: it stores the rate of a numeral from 1 to
    9999 and raises, before storing anything, on every other text. *)
Lemma change_try_cases (text : string) (self : SQGUIMainWindow.t) :
  SQGUIMainWindow.change_autorefresh_rate_try text self
  = match py_int text with
    | Ok n =>
        if ((n >? 0) && (n <? 10000))%Z
        then Return tt
               (SQGUIMainWindow.set_areftmr
                  (SQGUIMainWindow.QTimer_setInterval
                     (n * 1000) (SQGUIMainWindow.areftmr self))
                  (SQGUIMainWindow.set_arefrte (n * 1000) self))
        else Raise AssertionError self
    | Err e => Raise e self
    end.
Proof.
  unfold SQGUIMainWindow.change_autorefresh_rate_try, bind, lift, modify, get,
    ret, raise.
  destruct (py_int text) as [n|e]; [|reflexivity].
  destruct ((n >? 0)%Z && (n <? 10000)%Z); reflexivity.
Qed.

Lemma valid_rate_bounds (n : Z) :
  ((n >? 0) && (n <? 10000))%Z = true -> (1 <= n <= 9999)%Z.
Proof.
  intros H. apply andb_true_iff in H. destruct H as [H1 H2].
  apply Z.gtb_lt in H1. apply Z.ltb_lt in H2. lia.
Qed.

Lemma rate_ok_of_seconds (n : Z) (self : SQGUIMainWindow.t) :
  (1 <= n <= 9999)%Z -> SQGUIMainWindow.arefrte self = (n * 1000)%Z ->
  rate_ok self = true.
Proof.
  intros Hn H. unfold rate_ok. rewrite H, Z.mod_mul by lia.
  repeat (apply andb_true_iff; split);
    [apply Z.leb_le; lia | apply Z.leb_le; lia | reflexivity].
Qed.

(** The handler on any text, with fuel for one nested call. *)
Lemma change_cases (fuel : nat) (text : string) (self : SQGUIMainWindow.t) :
  SQGUIMainWindow.change_autorefresh_rate (S (S fuel)) text self
  = Some (Return tt
       (match py_int text with
        | Ok n =>
            if ((n >? 0) && (n <? 10000))%Z
            then SQGUIMainWindow.set_areftmr
                   (SQGUIMainWindow.QTimer_setInterval
                      (n * 1000) (SQGUIMainWindow.areftmr self))
                   (SQGUIMainWindow.set_arefrte (n * 1000) self)
            else if String.eqb (SQGUIMainWindow.w_arefrte self) "1" then self
            else SQGUIMainWindow.set_areftmr
                   (SQGUIMainWindow.QTimer_setInterval
                      1000 (SQGUIMainWindow.areftmr self))
                   (SQGUIMainWindow.set_arefrte
                      1000 (SQGUIMainWindow.set_w_arefrte "1" self))
        | Err _ =>
            if String.eqb (SQGUIMainWindow.w_arefrte self) "1" then self
            else SQGUIMainWindow.set_areftmr
                   (SQGUIMainWindow.QTimer_setInterval
                      1000 (SQGUIMainWindow.areftmr self))
                   (SQGUIMainWindow.set_arefrte
                      1000 (SQGUIMainWindow.set_w_arefrte "1" self))
        end)).
Proof.
  cbn [SQGUIMainWindow.change_autorefresh_rate].
  rewrite change_try_cases.
  assert (Hreset :
    SQGUIMainWindow.w_arefrte_setText
      (SQGUIMainWindow.change_autorefresh_rate (S fuel)) (py_str 1) self
    = Some (Return tt
         (if String.eqb (SQGUIMainWindow.w_arefrte self) "1" then self
          else SQGUIMainWindow.set_areftmr
                 (SQGUIMainWindow.QTimer_setInterval
                    1000 (SQGUIMainWindow.areftmr self))
                 (SQGUIMainWindow.set_arefrte
                    1000 (SQGUIMainWindow.set_w_arefrte "1" self))))).
  { unfold SQGUIMainWindow.w_arefrte_setText.
    change (py_str 1) with "1"%string.
    destruct (String.eqb (SQGUIMainWindow.w_arefrte self) "1"); [reflexivity|].
    cbn [SQGUIMainWindow.change_autorefresh_rate].
    rewrite change_try_cases. reflexivity. }
  destruct (py_int text) as [n|e].
  - destruct ((n >? 0)%Z && (n <? 10000)%Z); [reflexivity | exact Hreset].
  - exact Hreset.
Qed.

(** X11.  With fuel for one nested call, [change_autorefresh_rate]
    returns on every text, numeral or not, and never raises; it leaves the
    user, the columns, the frame, the table, the counter and the check
    boxes alone, does not start or stop the timer, and a rate that was a
    whole number of seconds from 1 to 9999 still is one afterwards. *)
Theorem change_autorefresh_rate_keeps_rate_ok
        (fuel : nat) (text : string) (self : SQGUIMainWindow.t) :
  (2 <= fuel)%nat ->
  rate_ok self = true ->
  exists self',
    SQGUIMainWindow.change_autorefresh_rate fuel text self
    = Some (Return tt self')
    /\ rate_ok self' = true
    /\ data_side self' = data_side self
    /\ SQGUIMainWindow.isActive (SQGUIMainWindow.areftmr self')
       = SQGUIMainWindow.isActive (SQGUIMainWindow.areftmr self).
Proof.
  intros Hfuel Hok. destruct fuel as [|[|fuel]]; try lia.
  rewrite change_cases. eexists. split; [reflexivity|].
  destruct (py_int text) as [n|e].
  - destruct ((n >? 0)%Z && (n <? 10000)%Z) eqn:E.
    + split; [|split; reflexivity].
      apply (rate_ok_of_seconds n); [now apply valid_rate_bounds | reflexivity].
    + destruct (String.eqb (SQGUIMainWindow.w_arefrte self) "1");
        (split; [auto | split; reflexivity]).
  - destruct (String.eqb (SQGUIMainWindow.w_arefrte self) "1");
      (split; [auto | split; reflexivity]).
Qed.

Lemma change_autorefresh_rate_keeps_rate_ok_witness :
  exists self',
    SQGUIMainWindow.change_autorefresh_rate 2 "" window_5
    = Some (Return tt self')
    /\ rate_ok self' = true
    /\ data_side self' = data_side window_5
    /\ SQGUIMainWindow.isActive (SQGUIMainWindow.areftmr self')
       = SQGUIMainWindow.isActive (SQGUIMainWindow.areftmr window_5).
Proof.
  apply (change_autorefresh_rate_keeps_rate_ok 2 "" window_5).
  - lia.
  - reflexivity.
Defined.



(** X13.  [toggle_autorefresh], with fuel for one nested call of the
    handler, returns.  With the box ticked the counter is reset to 0 and
    the timer runs with the rate the handler left as its interval, which
    is the rate of the text when the text is a numeral from 1 to 9999.
    With the box clear the timer is stopped and the rate, the interval,
    the text and the counter are left alone. *)
Theorem toggle_autorefresh_arms_timer (fuel : nat) (self : SQGUIMainWindow.t) :
  (2 <= fuel)%nat ->
  exists self',
    SQGUIMainWindow.toggle_autorefresh fuel self = Some (Return tt self')
    /\ if SQGUIMainWindow.w_arefbut self
       then SQGUIMainWindow.arefcnt self' = 0%Z
            /\ SQGUIMainWindow.isActive (SQGUIMainWindow.areftmr self') = true
            /\ SQGUIMainWindow.interval (SQGUIMainWindow.areftmr self')
               = SQGUIMainWindow.arefrte self'
            /\ (forall n, py_int (SQGUIMainWindow.w_arefrte self) = Ok n ->
                          (1 <= n <= 9999)%Z ->
                          SQGUIMainWindow.arefrte self' = (n * 1000)%Z)
       else SQGUIMainWindow.isActive (SQGUIMainWindow.areftmr self') = false
            /\ SQGUIMainWindow.interval (SQGUIMainWindow.areftmr self')
               = SQGUIMainWindow.interval (SQGUIMainWindow.areftmr self)
            /\ SQGUIMainWindow.arefrte self' = SQGUIMainWindow.arefrte self
            /\ SQGUIMainWindow.w_arefrte self' = SQGUIMainWindow.w_arefrte self
            /\ SQGUIMainWindow.arefcnt self' = SQGUIMainWindow.arefcnt self.
Proof.
  intros Hfuel. destruct fuel as [|[|fuel]]; try lia.
  unfold SQGUIMainWindow.toggle_autorefresh.
  destruct (SQGUIMainWindow.w_arefbut self) eqn:Eb.
  - rewrite change_cases.
    cbn [SQGUIMainWindow.w_arefrte SQGUIMainWindow.set_arefcnt
         SQGUIMainWindow.areftmr].
    eexists. split; [reflexivity|].
    destruct (py_int (SQGUIMainWindow.w_arefrte self)) as [n|e] eqn:E.
    + destruct ((n >? 0)%Z && (n <? 10000)%Z) eqn:Ev.
      * simpl. repeat split; auto. intros m Hm _. congruence.
      * destruct (String.eqb (SQGUIMainWindow.w_arefrte self) "1") eqn:E1.
        -- apply String.eqb_eq in E1. rewrite E1 in E. vm_compute in E.
           inversion E; subst. discriminate.
        -- simpl. repeat split; auto. intros m Hm Hr. inversion Hm; subst.
           assert (((m >? 0)%Z && (m <? 10000)%Z) = true).
           { apply andb_true_iff. split;
               [apply Z.gtb_lt | apply Z.ltb_lt]; lia. }
           congruence.
    + destruct (String.eqb (SQGUIMainWindow.w_arefrte self) "1") eqn:E1.
      * apply String.eqb_eq in E1. rewrite E1 in E. vm_compute in E.
        discriminate.
      * simpl. repeat split; auto. intros m Hm. discriminate.
  - eexists. split; [reflexivity|]. simpl. repeat split; reflexivity.
Qed.

Lemma toggle_autorefresh_arms_timer_witness :
  exists self',
    SQGUIMainWindow.toggle_autorefresh 2 window_5 = Some (Return tt self')
    /\ if SQGUIMainWindow.w_arefbut window_5
       then SQGUIMainWindow.arefcnt self' = 0%Z
            /\ SQGUIMainWindow.isActive (SQGUIMainWindow.areftmr self') = true
            /\ SQGUIMainWindow.interval (SQGUIMainWindow.areftmr self')
               = SQGUIMainWindow.arefrte self'
            /\ (forall n, py_int (SQGUIMainWindow.w_arefrte window_5) = Ok n ->
                          (1 <= n <= 9999)%Z ->
                          SQGUIMainWindow.arefrte self' = (n * 1000)%Z)
       else SQGUIMainWindow.isActive (SQGUIMainWindow.areftmr self') = false
            /\ SQGUIMainWindow.interval (SQGUIMainWindow.areftmr self')
               = SQGUIMainWindow.interval (SQGUIMainWindow.areftmr window_5)
            /\ SQGUIMainWindow.arefrte self' = SQGUIMainWindow.arefrte window_5
            /\ SQGUIMainWindow.w_arefrte self'
               = SQGUIMainWindow.w_arefrte window_5
            /\ SQGUIMainWindow.arefcnt self' = SQGUIMainWindow.arefcnt window_5.
Proof.
  apply (toggle_autorefresh_arms_timer 2 window_5). lia.
Defined.

(* ================================================================== *)
(** * Further properties of the refresh cycle *)

(** ** What a cycle leaves alone *)

Lemma convert_timevars_frame (cols : list string) (self : SQGUIMainWindow.t) :
  controls (state_of (SQGUIMainWindow.convert_timevars cols self))
  = controls self
  /\ SQGUIMainWindow.arefcnt
       (state_of (SQGUIMainWindow.convert_timevars cols self))
     = SQGUIMainWindow.arefcnt self
  /\ SQGUIMainWindow.sqmodel
       (state_of (SQGUIMainWindow.convert_timevars cols self))
     = SQGUIMainWindow.sqmodel self.
Proof.
  revert self. induction cols as [|col cols IH]; intros self.
  { simpl. auto. }
  cbn [SQGUIMainWindow.convert_timevars]. unfold bind.
  destruct (py.contains col SQUEUE_TIMEVAR).
  - unfold get, lift, modify.
    destruct (pd.assign_to_datetime (SQGUIMainWindow.sqdata self) col)
      as [df|e]; cbn [state_of]; auto.
    exact (IH (SQGUIMainWindow.set_sqdata df self)).
  - unfold ret. exact (IH self).
Qed.

(** X14.  Every call of [refresh], whether it returns or raises and
    whatever the query gave, counts one cycle and leaves the user, the
    columns, the rate, the timer, the check boxes and the line edit as
    they were. *)
Theorem refresh_counts_and_keeps_controls
        (squeue : result (list json.object)) (self : SQGUIMainWindow.t) :
  SQGUIMainWindow.arefcnt (state_of (SQGUIMainWindow.refresh squeue self))
  = (SQGUIMainWindow.arefcnt self + 1)%Z
  /\ controls (state_of (SQGUIMainWindow.refresh squeue self)) = controls self.
Proof.
  unfold SQGUIMainWindow.refresh, bind, modify, lift, get.
  destruct squeue as [jobs|e]; simpl; auto.
  destruct (pd.getitem _ _) as [df1|e]; simpl; auto.
  destruct (pd.where_ df1 _ _) as [df2|e]; simpl; auto.
  assert (Hconv : forall s,
    SQGUIMainWindow.arefcnt s = (SQGUIMainWindow.arefcnt self + 1)%Z ->
    controls s = controls self ->
    SQGUIMainWindow.arefcnt
      (state_of
         match SQGUIMainWindow.convert_timevars (SQGUIMainWindow.sqcols s) s with
         | Return _ s' =>
             SQGUIMainWindow.on_sqmodel
               (SqueueGUIModel.update_model
                  (pd.to_array (SQGUIMainWindow.sqdata s'))
                  (SQGUIMainWindow.sqcols s')) s'
         | Raise e s' => Raise e s'
         end) = (SQGUIMainWindow.arefcnt self + 1)%Z
    /\ controls
         (state_of
            match SQGUIMainWindow.convert_timevars (SQGUIMainWindow.sqcols s) s with
            | Return _ s' =>
                SQGUIMainWindow.on_sqmodel
                  (SqueueGUIModel.update_model
                     (pd.to_array (SQGUIMainWindow.sqdata s'))
                     (SQGUIMainWindow.sqcols s')) s'
            | Raise e s' => Raise e s'
            end) = controls self).
  { intros s Hc Hk.
    destruct (convert_timevars_frame (SQGUIMainWindow.sqcols s) s)
      as (H1 & H2 & _).
    destruct (SQGUIMainWindow.convert_timevars (SQGUIMainWindow.sqcols s) s)
      as [[] s'|e s']; simpl in *.
    - unfold SQGUIMainWindow.on_sqmodel.
      destruct (SqueueGUIModel.update_model _ _ _); simpl;
        unfold controls in *; simpl; split; congruence.
    - split; congruence. }
  pose (s2 := SQGUIMainWindow.set_sqdata df2
                (SQGUIMainWindow.set_sqdata df1
                   (SQGUIMainWindow.set_sqdata (pd.from_dict jobs)
                      (SQGUIMainWindow.set_arefcnt
                         (SQGUIMainWindow.arefcnt self + 1) self)))).
  destruct (SQGUIMainWindow.w_selffil self) eqn:Efil; simpl.
  - destruct (pd.where_ df2 _ _) as [df3|e].
    + exact (Hconv (SQGUIMainWindow.set_sqdata df3 s2) eq_refl eq_refl).
    + split; reflexivity.
  - exact (Hconv s2 eq_refl eq_refl).
Qed.

(** ** What a cycle that returns has done *)

Lemma convert_rows_cases (jobs : list json.object) :
  pd.convert_rows 6 (map (project sqcols7) jobs)
  = if forallb (fun o => convertible (field "start_time" o)) jobs
    then Ok (map snapshot_row jobs)
    else Err ValueError.
Proof.
  induction jobs as [|o jobs IH]; simpl; auto.
  rewrite IH. unfold convertible, snapshot_row, to_time.
  destruct (field "start_time" o); simpl;
    destruct (forallb _ jobs); reflexivity.
Qed.

(** A cycle whose records have every column: it raises [ValueError] when
    a kept start time does not convert, and otherwise hands the snapshot
    to [update_model]. *)
Lemma refresh_after_selection (jobs : list json.object)
      (self : SQGUIMainWindow.t) :
  SQGUIMainWindow.sqcols self = sqcols7 ->
  required_column_absent jobs sqcols7 = false ->
  SQGUIMainWindow.refresh (Ok jobs) self
  = if forallb (fun o => convertible (field "start_time" o))
               (filter (keep self) jobs)
    then SQGUIMainWindow.on_sqmodel
           (SqueueGUIModel.update_model (pd.to_array (snapshot self jobs))
                                        sqcols7)
           (SQGUIMainWindow.set_sqdata
              (snapshot self jobs)
              (SQGUIMainWindow.set_arefcnt
                 (SQGUIMainWindow.arefcnt self + 1) self))
    else Raise ValueError
           (SQGUIMainWindow.set_sqdata
              {| pd.columns := sqcols7;
                 pd.values := map (project sqcols7) (filter (keep self) jobs) |}
              (SQGUIMainWindow.set_arefcnt
                 (SQGUIMainWindow.arefcnt self + 1) self)).
Proof.
  intros Hcols Habs.
  destruct self as [un cols df m cnt rte tmr but txt fil]. simpl in *. subst cols.
  unfold snapshot, keep in *.
  cbn [SQGUIMainWindow.w_selffil SQGUIMainWindow.uname] in *.
  unfold SQGUIMainWindow.refresh, bind, modify, lift, get. simpl.
  rewrite (getitem_from_dict jobs sqcols7 Habs). simpl.
  unfold pd.where_. simpl.
  destruct fil; simpl.
  - rewrite !filter_map_comm, filter_filter_and. simpl.
    unfold SQGUIMainWindow.convert_timevars, bind, modify, lift, get, ret.
    simpl. unfold pd.assign_to_datetime. simpl.
    rewrite convert_rows_cases.
    destruct (forallb _ _); reflexivity.
  - rewrite !filter_map_comm. simpl.
    assert (E : filter (fun o => pd.isin ["RUNNING"; "PENDING"]%string
                                   (field "job_state" o) && true) jobs
                = filter (fun o => pd.isin ["RUNNING"; "PENDING"]%string
                                     (field "job_state" o)) jobs)
      by (apply filter_ext; intros o; apply andb_true_r).
    rewrite E.
    unfold SQGUIMainWindow.convert_timevars, bind, modify, lift, get, ret.
    simpl. unfold pd.assign_to_datetime. simpl.
    rewrite convert_rows_cases.
    destruct (forallb _ _); reflexivity.
Qed.

Lemma refresh_absent_column (jobs : list json.object)
      (self : SQGUIMainWindow.t) :
  required_column_absent jobs (SQGUIMainWindow.sqcols self) = true ->
  SQGUIMainWindow.refresh (Ok jobs) self
  = Raise KeyError
      (SQGUIMainWindow.set_sqdata
         (pd.from_dict jobs)
         (SQGUIMainWindow.set_arefcnt (SQGUIMainWindow.arefcnt self + 1) self)).
Proof.
  intros H.
  unfold SQGUIMainWindow.refresh, bind, modify, lift, get. simpl.
  unfold pd.getitem.
  now rewrite (locs_absent (SQGUIMainWindow.sqcols self) (pd.from_dict jobs) H).
Qed.

(** What a returning cycle implies. *)
Lemma refresh_returns_inv (jobs : list json.object)
      (self self' : SQGUIMainWindow.t) :
  SQGUIMainWindow.sqcols self = sqcols7 ->
  SQGUIMainWindow.refresh (Ok jobs) self = Return tt self' ->
  required_column_absent jobs sqcols7 = false
  /\ forallb (fun o => convertible (field "start_time" o))
             (filter (keep self) jobs) = true
  /\ SqueueGUIModel.update_model (pd.to_array (snapshot self jobs)) sqcols7
                                 (SQGUIMainWindow.sqmodel self)
     = Return tt (SQGUIMainWindow.sqmodel self')
  /\ self' = SQGUIMainWindow.set_sqmodel
               (SQGUIMainWindow.sqmodel self')
               (SQGUIMainWindow.set_sqdata
                  (snapshot self jobs)
                  (SQGUIMainWindow.set_arefcnt
                     (SQGUIMainWindow.arefcnt self + 1) self)).
Proof.
  intros Hcols Hr.
  destruct (required_column_absent jobs sqcols7) eqn:Eabs.
  { rewrite refresh_absent_column in Hr by (now rewrite Hcols). discriminate. }
  rewrite (refresh_after_selection jobs self Hcols Eabs) in Hr.
  destruct (forallb _ _) eqn:Econv; [|discriminate].
  unfold SQGUIMainWindow.on_sqmodel in Hr.
  cbn [SQGUIMainWindow.sqmodel SQGUIMainWindow.set_sqdata
       SQGUIMainWindow.set_arefcnt] in Hr.
  destruct (SqueueGUIModel.update_model _ _ _) as [[] m'|] eqn:Eu;
    [|discriminate].
  inversion Hr; subst. simpl. auto.
Qed.

Lemma update_model_rows (self self' : SqueueGUIModel.t)
      (new_array : np.ndarray) (new_headers : list string) :
  SqueueGUIModel.update_model new_array new_headers self = Return tt self' ->
  Permutation (np.rows (SqueueGUIModel._array self')) (np.rows new_array)
  /\ SqueueGUIModel._headers self' = new_headers
  /\ SqueueGUIModel._sortord self' = SqueueGUIModel._sortord self.
Proof.
  intros Hu.
  destruct (update_model_inv _ _ _ _ Hu) as (old & Hold & Hh & _).
  rewrite (update_model_as_sort self new_array new_headers old Hold) in Hu.
  rewrite sort_cases in Hu.
  destruct (py.index_of _ _) as [k|]; [|discriminate].
  destruct (np.argsort _) as [idx|] eqn:E; [|discriminate].
  inversion Hu; subst; clear Hu.
  apply argsort_ok_perm in E. unfold column_values in E.
  rewrite length_map in E. simpl in E.
  split; [|split; reflexivity].
  cbn [SqueueGUIModel.set_array SqueueGUIModel._array].
  apply take_perm. simpl.
  destruct (Qt.SortOrder_eqb _ _); auto. now rewrite <- Permutation_rev.
Qed.




(** ** A cycle and the sort the user chose *)

Lemma NoDup_sqcols7 : NoDup sqcols7.
Proof.
  unfold sqcols7.
  repeat (constructor; [simpl; intuition discriminate|]). constructor.
Qed.

Lemma rebound_nth_sqcols7 (k : nat) :
  (k < 7)%nat -> rebound (nth k sqcols7 EmptyString) sqcols7 = k.
Proof.
  intros Hk. unfold rebound.
  assert (Hin : py.contains (nth k sqcols7 EmptyString) sqcols7 = true)
    by (apply contains_In, nth_In; exact Hk).
  rewrite Hin. now rewrite (index_nth_NoDup sqcols7 k NoDup_sqcols7 Hk).
Qed.

(** X16.  A cycle that returns keeps the sort the user chose: on a table
    under the seven headers whose stored sort column is one of the seven,
    the stored column and the stored direction after the cycle are the
    ones stored before it. *)
Theorem refresh_keeps_sort_choice (jobs : list json.object)
        (self self' : SQGUIMainWindow.t) :
  SQGUIMainWindow.sqcols self = sqcols7 ->
  SqueueGUIModel._headers (SQGUIMainWindow.sqmodel self) = sqcols7 ->
  (0 <= SqueueGUIModel._sortby (SQGUIMainWindow.sqmodel self) < 7)%Z ->
  SQGUIMainWindow.refresh (Ok jobs) self = Return tt self' ->
  SqueueGUIModel._sortby (SQGUIMainWindow.sqmodel self')
  = SqueueGUIModel._sortby (SQGUIMainWindow.sqmodel self)
  /\ SqueueGUIModel._sortord (SQGUIMainWindow.sqmodel self')
     = SqueueGUIModel._sortord (SQGUIMainWindow.sqmodel self).
Proof.
  intros Hcols Hh Hsb Hr.
  destruct (refresh_returns_inv jobs self self' Hcols Hr) as (_ & _ & Hu & _).
  destruct (update_model_rows _ _ _ _ Hu) as (_ & _ & Hord).
  split; [|exact Hord].
  destruct (update_model_inv _ _ _ _ Hu) as (old & Hold & _ & Hs & _).
  rewrite Hs. rewrite Hh in Hold.
  destruct (getitem_nth _ _ _ Hold) as (k & Hk & Hname).
  destruct (index_of_bound _ _ _ Hk) as (Hlt & _ & Hz).
  assert (E : (SqueueGUIModel._sortby (SQGUIMainWindow.sqmodel self) <? 0)%Z
              = false) by (apply Z.ltb_ge; lia).
  rewrite E in Hz. subst old.
  rewrite (rebound_nth_sqcols7 k Hlt). exact Hz.
Qed.

Lemma refresh_keeps_sort_choice_witness :
  SqueueGUIModel._sortby
    (SQGUIMainWindow.sqmodel
       (state_of (SQGUIMainWindow.refresh
                    (Ok [job_18000; job_0])
                    (SQGUIMainWindow.set_sqmodel
                       (stored 5 Qt.AscendingOrder table_412)
                       (SQGUIMainWindow.__init__ "alice")))))
  = SqueueGUIModel._sortby
      (SQGUIMainWindow.sqmodel
         (SQGUIMainWindow.set_sqmodel
            (stored 5 Qt.AscendingOrder table_412)
            (SQGUIMainWindow.__init__ "alice")))
  /\ SqueueGUIModel._sortord
       (SQGUIMainWindow.sqmodel
          (state_of (SQGUIMainWindow.refresh
                       (Ok [job_18000; job_0])
                       (SQGUIMainWindow.set_sqmodel
                          (stored 5 Qt.AscendingOrder table_412)
                          (SQGUIMainWindow.__init__ "alice")))))
     = SqueueGUIModel._sortord
         (SQGUIMainWindow.sqmodel
            (SQGUIMainWindow.set_sqmodel
               (stored 5 Qt.AscendingOrder table_412)
               (SQGUIMainWindow.__init__ "alice"))).
Proof.
  apply (refresh_keeps_sort_choice
           [job_18000; job_0]
           (SQGUIMainWindow.set_sqmodel
              (stored 5 Qt.AscendingOrder table_412)
              (SQGUIMainWindow.__init__ "alice"))).
  - reflexivity.
  - reflexivity.
  - simpl. lia.
  - vm_compute. reflexivity.
Defined.

(** X17.  A second cycle on the same records repeats the first: it
    returns, and it leaves the table (rows, headers, sort column and
    direction) and the frame exactly as the first cycle left them; only
    the counter moves. *)
Theorem refresh_twice_same_table (jobs : list json.object)
        (self once : SQGUIMainWindow.t) :
  SQGUIMainWindow.sqcols self = sqcols7 ->
  SQGUIMainWindow.refresh (Ok jobs) self = Return tt once ->
  exists twice,
    SQGUIMainWindow.refresh (Ok jobs) once = Return tt twice
    /\ SQGUIMainWindow.sqmodel twice = SQGUIMainWindow.sqmodel once
    /\ SQGUIMainWindow.sqdata twice = SQGUIMainWindow.sqdata once
    /\ SQGUIMainWindow.arefcnt twice = (SQGUIMainWindow.arefcnt once + 1)%Z.
Proof.
  intros Hcols Hr.
  destruct (refresh_returns_inv jobs self once Hcols Hr)
    as (Habs & Hconv & Hu & Honce).
  set (m0 := SQGUIMainWindow.sqmodel self) in *.
  set (m1 := SQGUIMainWindow.sqmodel once) in *.
  set (A := pd.to_array (snapshot self jobs)) in *.
  assert (Hu1 : SqueueGUIModel.update_model A sqcols7 m1 = Return tt m1).
  { destruct (update_model_rows _ _ _ _ Hu) as (_ & _ & Hord).
    destruct (update_model_inv _ _ _ _ Hu) as (old & Hold & Hh & Hs & _).
    assert (Hlt : (rebound old sqcols7 < 7)%nat)
      by (apply (rebound_lt old sqcols7); discriminate).
    assert (Hold1 : py.getitem (SqueueGUIModel._headers m1)
                               (SqueueGUIModel._sortby m1)
                    = Ok (nth (rebound old sqcols7) sqcols7 EmptyString)).
    { rewrite Hh, Hs. unfold py.getitem.
      now rewrite (index_of_nat (List.length sqcols7) _ Hlt). }
    rewrite (update_model_as_sort m1 A sqcols7 _ Hold1).
    rewrite (rebound_nth_sqcols7 _ Hlt), Hord.
    rewrite (update_model_as_sort m0 A sqcols7 old Hold) in Hu.
    rewrite sort_cases in *. exact Hu. }
  assert (Hsame : once
                  = SQGUIMainWindow.set_sqmodel
                      m1 (SQGUIMainWindow.set_sqdata
                            (snapshot self jobs)
                            (SQGUIMainWindow.set_arefcnt
                               (SQGUIMainWindow.arefcnt self + 1) self)))
    by exact Honce.
  assert (Hcols1 : SQGUIMainWindow.sqcols once = sqcols7)
    by (rewrite Hsame; exact Hcols).
  assert (Hkeep : filter (keep once) jobs = filter (keep self) jobs)
    by (rewrite Hsame; reflexivity).
  assert (Hsnap : snapshot once jobs = snapshot self jobs)
    by (unfold snapshot; now rewrite Hkeep).
  exists (SQGUIMainWindow.set_sqmodel
            m1 (SQGUIMainWindow.set_sqdata
                  (snapshot self jobs)
                  (SQGUIMainWindow.set_arefcnt
                     (SQGUIMainWindow.arefcnt once + 1) once))).
  split.
  - rewrite (refresh_after_selection jobs once Hcols1 Habs).
    rewrite Hkeep, Hconv, Hsnap.
    unfold SQGUIMainWindow.on_sqmodel.
    cbn [SQGUIMainWindow.sqmodel SQGUIMainWindow.set_sqdata
         SQGUIMainWindow.set_arefcnt].
    fold m1. fold A. rewrite Hu1. reflexivity.
  - split; [reflexivity|]. split; [|reflexivity].
    simpl. rewrite Hsame. reflexivity.
Qed.

Lemma refresh_twice_same_table_witness :
  exists twice,
    SQGUIMainWindow.refresh
      (Ok [job_18000; job_0])
      (state_of (SQGUIMainWindow.refresh (Ok [job_18000; job_0])
                                         (SQGUIMainWindow.__init__ "alice")))
    = Return tt twice
    /\ SQGUIMainWindow.sqmodel twice
       = SQGUIMainWindow.sqmodel
           (state_of (SQGUIMainWindow.refresh
                        (Ok [job_18000; job_0])
                        (SQGUIMainWindow.__init__ "alice")))
    /\ SQGUIMainWindow.sqdata twice
       = SQGUIMainWindow.sqdata
           (state_of (SQGUIMainWindow.refresh
                        (Ok [job_18000; job_0])
                        (SQGUIMainWindow.__init__ "alice")))
    /\ SQGUIMainWindow.arefcnt twice
       = (SQGUIMainWindow.arefcnt
            (state_of (SQGUIMainWindow.refresh
                         (Ok [job_18000; job_0])
                         (SQGUIMainWindow.__init__ "alice"))) + 1)%Z.
Proof.
  apply (refresh_twice_same_table [job_18000; job_0]
                                  (SQGUIMainWindow.__init__ "alice")).
  - reflexivity.
  - vm_compute. reflexivity.
Defined.

(** ** A witness of the cycle that installs its snapshot *)

